(** * FashionAI: colour harmony toolkit and outfit recommendation engine

    A shallow embedding of [DataBridge/backend/color_analyzer.py] and
    [DataBridge/backend/outfit_recommender.py].

    Conventions.
    - Python [int] is [Z]; Python [float] is modelled by the exact rationals
      [Q], so every decimal literal of the source is the same decimal here
      and every comparison is the comparison of the source on exact values.
      Rounding of binary floating point is not modelled.
    - Python [str] is [string] (strings of ASCII characters).
    - A function that can raise returns a [result]; [Raise] carries the
      exception class.
    - A [dict] whose iteration order matters is an association list in
      insertion order. *)

From Stdlib Require Import ZArith QArith Qminmax Qabs Qround.
From Stdlib Require Import String Ascii List Bool Lia Lqa Permutation Sorted.
Import ListNotations.

Local Open Scope Z_scope.

(** ** Python: exceptions, numbers, strings *)

Module Py.

Inductive exn : Type :=
| ValueError
| ZeroDivisionError.

Inductive result (A : Type) : Type :=
| Ok (a : A)
| Raise (e : exn).
Arguments Ok {A} a.
Arguments Raise {A} e.

Definition bind {A B : Type} (m : result A) (k : A -> result B) : result B :=
  match m with
  | Ok a => k a
  | Raise e => Raise e
  end.

(** [x < y], [x <= y] and [x == y] on floats. *)
Definition ltb (x y : Q) : bool := negb (Qle_bool y x).
Definition leb (x y : Q) : bool := Qle_bool x y.
Definition eqb (x y : Q) : bool := Qeq_bool x y.

(** [x % 1.0]: the result has the sign of the divisor. *)
Definition mod1 (x : Q) : Q := (x - inject_Z (Qfloor x))%Q.

(** [np.mean] of a list of numbers. *)
Definition sum (l : list Q) : Q := fold_left Qplus l 0%Q.
Definition mean (l : list Q) : Q := (sum l / inject_Z (Z.of_nat (length l)))%Q.

(** [s.lstrip(c)] for a one-character set. *)
Fixpoint lstrip (c : ascii) (s : string) : string :=
  match s with
  | String a rest => if Ascii.eqb a c then lstrip c rest else s
  | EmptyString => s
  end.

(** [s[i:i+2]]: slicing truncates at the end of the string. *)
Definition slice2 (i : nat) (s : string) : string := substring i 2 s.

(** Whitespace skipped by [int()]: TAB..CR, FS..US and the space. *)
Definition is_space (c : ascii) : bool :=
  let n := nat_of_ascii c in
  ((9 <=? n) && (n <=? 13) || (28 <=? n) && (n <=? 32))%nat.

Definition hex_digit_value (c : ascii) : option Z :=
  let n := Z.of_nat (nat_of_ascii c) in
  if (48 <=? n) && (n <=? 57) then Some (n - 48)
  else if (97 <=? n) && (n <=? 102) then Some (n - 87)
  else if (65 <=? n) && (n <=? 70) then Some (n - 55)
  else None.

Fixpoint skip_spaces (s : string) : string :=
  match s with
  | String a rest => if is_space a then skip_spaces rest else s
  | EmptyString => s
  end.

(** The digit scan of [int(s, 16)]: hexadecimal digits, single underscores
    allowed between them.  Returns the value, the number of digits and the
    unread rest; [None] on a doubled or trailing underscore. *)
Fixpoint scan_digits (s : string) (prev_underscore : bool) (acc : Z) (digits : nat)
  : option (Z * nat * string) :=
  match s with
  | EmptyString => if prev_underscore then None else Some (acc, digits, s)
  | String c rest =>
      if Ascii.eqb c "_" then
        if prev_underscore then None else scan_digits rest true acc digits
      else
        match hex_digit_value c with
        | Some d => scan_digits rest false (16 * acc + d) (S digits)
        | None => if prev_underscore then None else Some (acc, digits, s)
        end
  end.

(** The text accepted by [int(s, 16)]: leading whitespace, an optional sign,
    an optional [0x] prefix (with one underscore after it), the digits,
    trailing whitespace. *)
Definition parse_int16 (s : string) : option Z :=
  let s := skip_spaces s in
  let '(sign, s) :=
    match s with
    | String "+" rest => (1, rest)
    | String "-" rest => (-1, rest)
    | _ => (1, s)
    end in
  let s :=
    match s with
    | String "0" (String x rest) =>
        if Ascii.eqb x "x" || Ascii.eqb x "X" then
          match rest with
          | String "_" rest' => rest'
          | _ => rest
          end
        else s
    | _ => s
    end in
  match s with
  | String "_" _ => None
  | _ =>
      match scan_digits s false 0 0 with
      | Some (v, S _, rest) =>
          match skip_spaces rest with
          | EmptyString => Some (sign * v)
          | _ => None
          end
      | _ => None
      end
  end.

(** [int(s, 16)] raises [ValueError] on any other text. *)
Definition int16 (s : string) : result Z :=
  match parse_int16 s with
  | Some v => Ok v
  | None => Raise ValueError
  end.

(** [l[:n]] for a Python int [n]: a negative [n] counts from the end. *)
Definition slice_to {A : Type} (n : Z) (l : list A) : list A :=
  if n <? 0 then firstn (length l - Z.to_nat (- n)) l
  else firstn (Z.to_nat n) l.

End Py.

Import Py.

Declare Scope py_scope.
Delimit Scope py_scope with py.
Notation "x <- m ;; k" := (bind m (fun x => k))
  (at level 61, m at next level, right associativity) : py_scope.
Notation "' p <- m ;; k" := (bind m (fun x => match x with p => k end))
  (at level 61, p pattern, m at next level, right associativity) : py_scope.
Infix "<?" := Py.ltb (at level 70, no associativity) : Q_scope.
Infix "<=?" := Py.leb (at level 70, no associativity) : Q_scope.
Local Open Scope py_scope.

(** ** colorsys (Python standard library) *)

Module colorsys.

(** [colorsys.rgb_to_hsv]; the division by [maxc] raises when [maxc] is zero
    and [minc] is not. *)
Definition rgb_to_hsv (r g b : Q) : result (Q * Q * Q) :=
  let maxc := Qmax (Qmax r g) b in
  let minc := Qmin (Qmin r g) b in
  let rangec := (maxc - minc)%Q in
  let v := maxc in
  if Py.eqb minc maxc then Ok (0%Q, 0%Q, v)
  else if Py.eqb maxc 0 then Raise ZeroDivisionError
  else
    let s := (rangec / maxc)%Q in
    let rc := ((maxc - r) / rangec)%Q in
    let gc := ((maxc - g) / rangec)%Q in
    let bc := ((maxc - b) / rangec)%Q in
    let h :=
      if Py.eqb r maxc then (bc - gc)%Q
      else if Py.eqb g maxc then (2 + rc - bc)%Q
      else (4 + gc - rc)%Q in
    let h := Py.mod1 (h / 6) in
    Ok (h, s, v).

End colorsys.

(** ** color_analyzer.py *)

Module ColorAnalyzer.

Definition rgb : Type := (Z * Z * Z)%type.
Definition hsv : Type := (Q * Q * Q)%type.


(** [hex_to_rgb] (lines 594-597). *)
Definition hex_to_rgb (hex_color : string) : result rgb :=
  let hex_color := Py.lstrip "#" hex_color in
  r <- Py.int16 (Py.slice2 0 hex_color) ;;
  g <- Py.int16 (Py.slice2 2 hex_color) ;;
  b <- Py.int16 (Py.slice2 4 hex_color) ;;
  Ok (r, g, b).

(** [rgb_to_hsv] (lines 268-278): H in degrees, S and V in percent. *)
Definition rgb_to_hsv (c : rgb) : result hsv :=
  let '(r, g, b) := c in
  ' (h, s, v) <- colorsys.rgb_to_hsv (inject_Z r / 255) (inject_Z g / 255)
                                      (inject_Z b / 255) ;;
  Ok (h * 360, s * 100, v * 100)%Q.








(** The circular hue difference of lines 470-472 and 559-561. *)
Definition hue_difference (h1 h2 : Q) : Q :=
  let hue_diff := Qabs (h1 - h2) in
  if (180 <? hue_diff)%Q then (360 - hue_diff)%Q else hue_diff.

(** The band table of lines 494-524. *)
Definition base_score (hue_diff : Q) : Q :=
  (if (160 <=? hue_diff) && (hue_diff <=? 200) then 0.95
   else if (105 <=? hue_diff) && (hue_diff <=? 135)
           || (225 <=? hue_diff) && (hue_diff <=? 255) then 0.92
   else if (75 <=? hue_diff) && (hue_diff <=? 105)
           || (255 <=? hue_diff) && (hue_diff <=? 285) then 0.90
   else if (15 <=? hue_diff) && (hue_diff <=? 45) then 0.87
   else if (130 <=? hue_diff) && (hue_diff <=? 170)
           || (190 <=? hue_diff) && (hue_diff <=? 210) then 0.82
   else if (45 <? hue_diff) && (hue_diff <=? 75) then 0.78
   else if (75 <? hue_diff) && (hue_diff <? 105) then 0.70
   else 0.55)%Q.

(** The adjustments of lines 526-536. *)
Definition adjust_score (score s1 v1 s2 v2 : Q) : Q :=
  let sat_diff := Qabs (s1 - s2) in
  let val_diff := Qabs (v1 - v2) in
  let score := if (25 <? val_diff)%Q then Qmin (score + 0.05) 1.0 else score in
  let score := if (60 <? sat_diff)%Q then Qmax (score - 0.05) 0.5 else score in
  score.

(** [are_colors_harmonious] (lines 454-538). *)
Definition are_colors_harmonious (hex_color1 hex_color2 : string) : result Q :=
  rgb1 <- hex_to_rgb hex_color1 ;;
  rgb2 <- hex_to_rgb hex_color2 ;;
  ' (h1, s1, v1) <- rgb_to_hsv rgb1 ;;
  ' (h2, s2, v2) <- rgb_to_hsv rgb2 ;;
  let hue_diff := hue_difference h1 h2 in
  let is_neutral1 := (s1 <? 20)%Q in
  let is_neutral2 := (s2 <? 20)%Q in
  if is_neutral1 || is_neutral2 then Ok 0.85%Q
  else if (hue_diff <? 15)%Q then
    let value_diff := Qabs (v1 - v2) in
    if (30 <? value_diff)%Q then Ok 0.88%Q else Ok 0.75%Q
  else
    Ok (adjust_score (base_score hue_diff) s1 v1 s2 v2).

(** The scheme names returned by [get_color_scheme_type]. *)
Definition classify (hue_diff : Q) : string :=
  (if (hue_diff <? 15)%Q then "monochromatic"
   else if (15 <=? hue_diff)%Q && (hue_diff <=? 45)%Q then "analogous"
   else if (75 <=? hue_diff)%Q && (hue_diff <=? 105)%Q then "tetradic"
   else if (105 <=? hue_diff)%Q && (hue_diff <=? 135)%Q then "triadic"
   else if (130 <=? hue_diff)%Q && (hue_diff <=? 170)%Q then "split-complementary"
   else if (160 <=? hue_diff)%Q && (hue_diff <=? 200)%Q then "complementary"
   else "custom")%string.

(** [get_color_scheme_type] (lines 540-577; the statements after the last
    [return] are unreachable). *)
Definition get_color_scheme_type (hex_color1 hex_color2 : string) : result string :=
  rgb1 <- hex_to_rgb hex_color1 ;;
  rgb2 <- hex_to_rgb hex_color2 ;;
  ' (h1, s1, v1) <- rgb_to_hsv rgb1 ;;
  ' (h2, s2, v2) <- rgb_to_hsv rgb2 ;;
  if (s1 <? 20)%Q || (s2 <? 20)%Q then Ok "neutral"%string
  else Ok (classify (hue_difference h1 h2)).

(** The second definition of [get_color_name] (lines 603-639), the one the
    class ends up with. *)
Definition get_color_name (hex_color : string) : result string :=
  c <- hex_to_rgb hex_color ;;
  ' (h, s, v) <- rgb_to_hsv c ;;
  if (s <? 20)%Q then
    if (80 <? v)%Q then Ok "White"%string
    else if (v <? 20)%Q then Ok "Black"%string
    else Ok "Gray"%string
  else if (h <? 15)%Q || (345 <=? h)%Q then Ok "Red"%string
  else if (h <? 45)%Q then Ok "Orange"%string
  else if (h <? 75)%Q then Ok "Yellow"%string
  else if (h <? 165)%Q then Ok "Green"%string
  else if (h <? 255)%Q then Ok "Blue"%string
  else if (h <? 285)%Q then Ok "Purple"%string
  else if (h <? 345)%Q then Ok "Pink"%string
  else Ok "Red"%string.

End ColorAnalyzer.

Import ColorAnalyzer.

(** ** outfit_recommender.py *)

Section OutfitRecommender.

(** The embedding vectors and [ml_classifier.compute_similarity] belong to
    the classifier, an external collaborator of the engine. *)
Context {features : Type}.
Variable compute_similarity : features -> features -> Q.

(** An entry of an item's ['colors'] list; only ['hex'] is read here. *)
Record color : Type := { hex : string }.

(** A wardrobe item.  [item_type] and [dominant_color] are [None] when the
    key is missing from the dict; [item_features] is [None] when the key is
    missing or holds [None]; a missing ['colors'] is the empty list. *)
Record item : Type := {
  item_id : string;
  item_type : option string;
  item_colors : list color;
  dominant_color : option string;
  item_features : option features
}.

Record rules : Type := {
  preferred_combinations : list (list string);
  color_style : string;
  formality : Q
}.

(** The dict appended to [outfits] (lines 234-243). *)
Record outfit : Type := {
  items : list item;
  score : Q;
  total_items : nat;
  occasion_of : string;
  types : list (option string);
  color_scheme : string;
  color_scheme_confidence : Q;
  dominant_colors : list string
}.

Definition len {A : Type} (l : list A) : Z := Z.of_nat (length l).

Definition mem (x : string) (l : list string) : bool := existsb (String.eqb x) l.

Definition subset (a b : list string) : bool := forallb (fun x => mem x b) a.

(** [set(l)] as its list of distinct elements. *)
Definition set_of (l : list string) : list string := nodup string_dec l.

Definition option_string_dec (a b : option string) : {a = b} + {a <> b}.
Proof. decide equality. apply string_dec. Defined.

Definition set_of_types (l : list (option string)) : list (option string) :=
  nodup option_string_dec l.

(** [self.occasion_rules] (lines 27-84). *)
Definition casual_rules : rules :=
  {| preferred_combinations :=
       [["top"; "bottom"]; ["dress"]; ["top"; "bottom"; "shoes"]];
     color_style := "relaxed"; formality := 0.3 |}%string.

Definition occasion_rules : list (string * rules) :=
  [ ("casual", casual_rules);
    ("formal",
     {| preferred_combinations :=
          [["blazer"; "top"; "bottom"]; ["dress"]; ["top"; "bottom"];
           ["blazer"; "dress"]];
        color_style := "conservative"; formality := 0.9 |});
    ("business",
     {| preferred_combinations :=
          [["blazer"; "top"; "bottom"]; ["top"; "bottom"];
           ["blazer"; "dress"]; ["dress"]];
        color_style := "professional"; formality := 0.8 |});
    ("party",
     {| preferred_combinations :=
          [["dress"]; ["top"; "bottom"]; ["blazer"; "top"; "bottom"];
           ["top"; "bottom"; "shoes"]];
        color_style := "bold"; formality := 0.5 |});
    ("date",
     {| preferred_combinations :=
          [["dress"]; ["top"; "bottom"]; ["blazer"; "top"; "bottom"]];
        color_style := "harmonious"; formality := 0.6 |});
    ("sports",
     {| preferred_combinations :=
          [["top"; "bottom"]; ["top"; "bottom"; "shoes"]];
        color_style := "vibrant"; formality := 0.2 |})
  ]%string.

(** [d.get(key)] on an association list. *)
Fixpoint dict_get {V : Type} (d : list (string * V)) (key : string) : option V :=
  match d with
  | [] => None
  | (k, v) :: d' => if String.eqb k key then Some v else dict_get d' key
  end.

Definition get_or {V : Type} (d : list (string * V)) (key : string) (default : V) : V :=
  match dict_get d key with
  | Some v => v
  | None => default
  end.

Definition keys {V : Type} (d : list (string * V)) : list string := map fst d.

(** All unordered pairs [(l[i], l[j])], [i < j], in the order of the two
    nested [for] loops. *)
Fixpoint pairs {A : Type} (l : list A) : list (A * A) :=
  match l with
  | [] => []
  | x :: t => map (pair x) t ++ pairs t
  end.

Definition dominant_or_gray (it : item) : string :=
  match dominant_color it with
  | Some c => c
  | None => "#808080"%string
  end.

Definition type_or_other (it : item) : string :=
  match item_type it with
  | Some t => t
  | None => "other"%string
  end.

(** The loop of lines 349-358: the dominant colour of each item, followed by
    its secondary colour when the item has more than one. *)
Definition harmony_colors (outfit_items : list item) : list string :=
  flat_map
    (fun it =>
       dominant_or_gray it ::
       match item_colors it with
       | _ :: secondary :: _ => [hex secondary]
       | _ => []
       end)
    outfit_items.

(** The loops of lines 364-371. *)
Fixpoint pairwise (ps : list (string * string)) : result (list Q * list string) :=
  match ps with
  | [] => Ok ([], [])
  | (a, b) :: t =>
      s <- are_colors_harmonious a b ;;
      scheme <- get_color_scheme_type a b ;;
      ' (harmony_scores, scheme_types) <- pairwise t ;;
      Ok (s :: harmony_scores, scheme :: scheme_types)
  end.

(** The adjustments of lines 379-419. *)
Definition style_adjust (color_style : string) (scheme_types : list string)
  (avg_harmony : Q) : Q :=
  let has := fun name => mem name scheme_types in
  let avg_harmony :=
    (if String.eqb color_style "conservative" then
       let a := if has "analogous" || has "monochromatic"
                then Qmin (avg_harmony * 1.08) 1.0 else avg_harmony in
       if has "complementary" && (0.92 <? a)%Q then (a * 0.96)%Q else a
     else if String.eqb color_style "bold" then
       let a := if has "complementary"
                then Qmin (avg_harmony * 1.10) 1.0 else avg_harmony in
       if has "triadic" then Qmin (a * 1.08) 1.0 else a
     else if String.eqb color_style "professional" then
       let a := if has "neutral"
                then Qmin (avg_harmony * 1.12) 1.0 else avg_harmony in
       if has "monochromatic" then Qmin (a * 1.06) 1.0 else a
     else if String.eqb color_style "harmonious" then
       let a := if has "analogous"
                then Qmin (avg_harmony * 1.10) 1.0 else avg_harmony in
       if has "monochromatic" then Qmin (a * 1.08) 1.0 else a
     else if String.eqb color_style "vibrant" then
       if has "triadic" || has "tetradic"
       then Qmin (avg_harmony * 1.08) 1.0 else avg_harmony
     else avg_harmony)%string in
  let unique_schemes := length (set_of scheme_types) in
  if (1 <? unique_schemes)%nat then Qmin (avg_harmony * 1.03) 1.0
  else avg_harmony.

(** [_calculate_color_harmony] (lines 327-421). *)
Definition _calculate_color_harmony (outfit_items : list item) (color_style : string)
  : result Q :=
  if (length outfit_items <? 2)%nat then Ok 0.88%Q
  else
    let colors := harmony_colors outfit_items in
    ' (harmony_scores, scheme_types) <- pairwise (pairs colors) ;;
    match harmony_scores with
    | [] => Ok 0.88%Q
    | _ => Ok (style_adjust color_style scheme_types (Py.mean harmony_scores))
    end.

(** [_calculate_style_similarity] (lines 423-466). *)
Definition _calculate_style_similarity (outfit_items : list item) : Q :=
  if (length outfit_items <? 2)%nat then 0.80%Q
  else
    let features_list :=
      flat_map (fun it => match item_features it with
                          | Some f => [f]
                          | None => []
                          end) outfit_items in
    if (length features_list <? 2)%nat then 0.75%Q
    else
      let similarities :=
        map (fun p => compute_similarity (fst p) (snd p)) (pairs features_list) in
      match similarities with
      | [] => 0.75%Q
      | _ =>
          let avg_similarity := Py.mean similarities in
          (0.6 + avg_similarity * 0.4)%Q
      end.

Definition formality_scores : list (string * Q) :=
  [ ("dress", 0.7%Q); ("blazer", 0.9%Q); ("top", 0.5%Q); ("bottom", 0.5%Q);
    ("shoes", 0.6%Q); ("other", 0.4%Q) ]%string.

(** [_calculate_occasion_fit] (lines 468-503).  It is only called on a
    non-empty outfit, where the mean is defined. *)
Definition _calculate_occasion_fit (outfit_items : list item) (r : rules) : Q :=
  let formality_required := formality r in
  let outfit_formality :=
    Py.mean (map (fun it => get_or formality_scores (type_or_other it) 0.5%Q)
                 outfit_items) in
  let formality_diff := Qabs (outfit_formality - formality_required) in
  let fit_score := (1.0 - formality_diff * 0.8)%Q in
  Qmax fit_score 0.5.

(** [_calculate_outfit_score] (lines 278-325). *)
Definition _calculate_outfit_score (outfit_items : list item) (occasion : string)
  (r : rules) : result Q :=
  match outfit_items with
  | [] => Ok 0.0%Q
  | _ =>
      color_score <- _calculate_color_harmony outfit_items (color_style r) ;;
      let style_score := _calculate_style_similarity outfit_items in
      let occasion_score := _calculate_occasion_fit outfit_items r in
      let variety_score := (inject_Z (len outfit_items) / 3.0)%Q in
      let variety_score := Qmin variety_score 1.0 in
      let total_score :=
        (color_score * 0.40 + style_score * 0.30 + occasion_score * 0.20
         + variety_score * 0.10)%Q in
      Ok total_score
  end.

(** [scheme_counts[scheme] = scheme_counts.get(scheme, 0) + 1]. *)
Fixpoint count_up (scheme : string) (d : list (string * Z)) : list (string * Z) :=
  match d with
  | [] => [(scheme, 1)]
  | (k, n) :: d' =>
      if String.eqb k scheme then (k, n + 1) :: d' else (k, n) :: count_up scheme d'
  end.

(** [max(scheme_counts, key=scheme_counts.get)]: the first key with the
    largest count. *)
Fixpoint max_key (best : string * Z) (d : list (string * Z)) : string * Z :=
  match d with
  | [] => best
  | (k, n) :: d' => if snd best <? n then max_key (k, n) d' else max_key best d'
  end.

Fixpoint scheme_tally (ps : list (string * string)) (scheme_counts : list (string * Z))
  : result (list (string * Z)) :=
  match ps with
  | [] => Ok scheme_counts
  | (a, b) :: t =>
      scheme <- get_color_scheme_type a b ;;
      scheme_tally t (count_up scheme scheme_counts)
  end.

(** [_get_outfit_color_scheme] (lines 505-550): scheme, confidence, colours. *)
Definition _get_outfit_color_scheme (outfit_items : list item)
  : result (string * Q * list string) :=
  if (length outfit_items <? 2)%nat then
    let dominant :=
      match outfit_items with
      | it :: _ => dominant_or_gray it
      | [] => "#808080"%string
      end in
    Ok ("monochromatic"%string, 0.90%Q, [dominant])
  else
    let colors := map dominant_or_gray outfit_items in
    scheme_counts <- scheme_tally (pairs colors) [] ;;
    match scheme_counts with
    | [] => Ok ("custom"%string, 0.50%Q, colors)
    | first :: rest =>
        let '(dominant_scheme, n) := max_key first rest in
        let total_pairs := fold_left Z.add (map snd scheme_counts) 0 in
        let confidence := (inject_Z n / inject_Z total_pairs)%Q in
        Ok (dominant_scheme, confidence, colors)
    end.

(** The grouping loop of lines 122-127. *)
Fixpoint append_item (key : string) (it : item) (d : list (string * list item))
  : list (string * list item) :=
  match d with
  | [] => [(key, [it])]
  | (k, l) :: d' =>
      if String.eqb k key then (k, l ++ [it]) :: d'
      else (k, l) :: append_item key it d'
  end.

Definition group_by_type (clothing_items : list item) : list (string * list item) :=
  fold_left (fun d it => append_item (type_or_other it) it d) clothing_items [].

(** The validation of lines 187-210. *)
Definition valid_outfit (combination_pattern : list string) : bool :=
  let pattern_set := set_of combination_pattern in
  let has := fun t => mem t pattern_set in
  let valid :=
    (if subset pattern_set ["dress"] && subset ["dress"] pattern_set then true
     else if has "top" && has "bottom" then true
     else if has "blazer" && has "top" && has "bottom" then true
     else if has "blazer" && has "dress" then true
     else false)%string in
  (if has "shoes" then
     let shoes_removed := filter (fun t => negb (String.eqb t "shoes")) pattern_set in
     let has' := fun t => mem t shoes_removed in
     if has' "top" && has' "bottom" || has' "dress"
        || has' "blazer" && has' "top" && has' "bottom"
     then true else valid
   else valid)%string.

Section Generate.

Variable items_by_type : list (string * list item).
Variable occasion : string.
Variable r : rules.
Variable max_combinations : Z.

(** The base case of [generate_recursive] (lines 218-244): a completed
    outfit is validated, scored and appended. *)
Definition complete (current_outfit : list item) (outfits : list outfit)
  : result (list outfit) :=
  let outfit_types := map item_type current_outfit in
  if negb (length outfit_types =? length (set_of_types outfit_types))%nat
  then Ok outfits
  else
    s <- _calculate_outfit_score current_outfit occasion r ;;
    ' (scheme, confidence, colors) <- _get_outfit_color_scheme current_outfit ;;
    if (0.50 <=? s)%Q then
      Ok (outfits ++
          [ {| items := current_outfit;
               score := s;
               total_items := length current_outfit;
               occasion_of := occasion;
               types := outfit_types;
               color_scheme := scheme;
               color_scheme_confidence := confidence;
               dominant_colors := colors |} ])
    else Ok outfits.

Definition type_is (it : item) (current_type : string) : bool :=
  match item_type it with
  | Some t => String.eqb t current_type
  | None => false
  end.

(** [generate_recursive] (lines 217-271).  [pattern_rest] is the pattern
    from [pattern_index] on; [outfits] is the accumulator of the enclosing
    function, threaded through; [current_outfit] and [used_types] are
    restored by the caller after each call, so they are passed by value. *)
Fixpoint generate_recursive (pattern_rest : list string) (current_outfit : list item)
  (used_types : list string) (outfits : list outfit) {struct pattern_rest}
  : result (list outfit) :=
  match pattern_rest with
  | [] => complete current_outfit outfits
  | current_type :: pattern_rest' =>
      if max_combinations <=? len outfits then Ok outfits
      else if mem current_type used_types then Ok outfits
      else
        let available_items := get_or items_by_type current_type [] in
        (fix loop (l : list item) (outfits : list outfit) {struct l}
           : result (list outfit) :=
           match l with
           | [] => Ok outfits
           | it :: l' =>
               if max_combinations <=? len outfits then Ok outfits
               else if negb (type_is it current_type) then loop l' outfits
               else
                 outfits' <- generate_recursive pattern_rest'
                               (current_outfit ++ [it])
                               (current_type :: used_types) outfits ;;
                 loop l' outfits'
           end) (firstn 5 available_items) outfits
  end.

(** [_generate_combinations] (lines 151-276). *)
Definition _generate_combinations (combination_pattern : list string)
  : result (list outfit) :=
  let available_types := keys items_by_type in
  let required_types := set_of combination_pattern in
  if negb (subset required_types available_types) then Ok []
  else if negb (length combination_pattern =? length (set_of combination_pattern))%nat
  then Ok []
  else if negb (valid_outfit combination_pattern) then Ok []
  else generate_recursive combination_pattern [] [] [].

End Generate.

(** [outfits.sort(key=lambda x: x['score'], reverse=True)]: a stable sort by
    descending score. *)
Fixpoint insert_by_score (o : outfit) (l : list outfit) : list outfit :=
  match l with
  | [] => [o]
  | o' :: l' =>
      if (score o <? score o')%Q then o' :: insert_by_score o l'
      else o :: l
  end.

Definition sort_by_score (l : list outfit) : list outfit :=
  fold_right insert_by_score [] l.

(** The loop of lines 133-144. *)
Fixpoint try_combinations (items_by_type : list (string * list item))
  (occasion : string) (r : rules) (max_outfits : Z)
  (combinations : list (list string)) (outfits : list outfit)
  : result (list outfit) :=
  match combinations with
  | [] => Ok outfits
  | combination :: rest =>
      generated <- _generate_combinations items_by_type occasion r
                     (max_outfits - len outfits) combination ;;
      let outfits := outfits ++ generated in
      if max_outfits <=? len outfits then Ok outfits
      else try_combinations items_by_type occasion r max_outfits rest outfits
  end.

(** [recommend_outfits] (lines 88-149). *)
Definition recommend_outfits (clothing_items : list item) (occasion : string)
  (max_outfits : Z) (items_per_outfit : Z) : result (list outfit) :=
  match clothing_items with
  | [] => Ok []
  | _ =>
      let r := get_or occasion_rules occasion casual_rules in
      let items_by_type := group_by_type clothing_items in
      outfits <- try_combinations items_by_type occasion r max_outfits
                   (preferred_combinations r) [] ;;
      let outfits := sort_by_score outfits in
      Ok (Py.slice_to max_outfits outfits)
  end.

(** *** The search as a scan of its leaves

    [candidates] lists the completed assignments [generate_recursive]
    reaches, in the order it reaches them when no cap stops it; [scan] runs
    [complete] over such a list until the cap is met.  Both are used only to
    reason about [generate_recursive]. *)
Fixpoint candidates (items_by_type : list (string * list item))
  (pattern_rest : list string) (current_outfit : list item)
  (used_types : list string) {struct pattern_rest} : list (list item) :=
  match pattern_rest with
  | [] => [current_outfit]
  | current_type :: pattern_rest' =>
      if mem current_type used_types then []
      else
        flat_map
          (fun it =>
             if type_is it current_type then
               candidates items_by_type pattern_rest' (current_outfit ++ [it])
                 (current_type :: used_types)
             else [])
          (firstn 5 (get_or items_by_type current_type []))
  end.

Fixpoint scan (occasion : string) (r : rules) (cap : Z) (cs : list (list item))
  (outfits : list outfit) : result (list outfit) :=
  match cs with
  | [] => Ok outfits
  | c :: cs' =>
      if cap <=? len outfits then Ok outfits
      else outfits' <- complete occasion r c outfits ;; scan occasion r cap cs' outfits'
  end.

(** The leaves of one pattern, empty when [_generate_combinations] skips it. *)
Definition pattern_candidates (items_by_type : list (string * list item))
  (combination_pattern : list string) : list (list item) :=
  if negb (subset (set_of combination_pattern) (keys items_by_type)) then []
  else if negb (length combination_pattern =? length (set_of combination_pattern))%nat
  then []
  else if negb (valid_outfit combination_pattern) then []
  else candidates items_by_type combination_pattern [] [].

(** An accepted outfit: its score reaches the threshold and no two of its
    items have the same type. *)
Definition well_formed (o : outfit) : Prop :=
  (0.50 <= score o)%Q /\ NoDup (map item_type (items o)).

(** Scores never increase along the list. *)
Definition descending (l : list outfit) : Prop :=
  StronglySorted (fun a b => (score b <= score a)%Q) l.

End OutfitRecommender.

(** ** Statements of the specification *)

Module Spec.

Definition is_hex_digit (c : ascii) : bool :=
  match Py.hex_digit_value c with
  | Some _ => true
  | None => false
  end.

(** A well-formed colour: [#] followed by exactly six hexadecimal digits. *)
Definition valid_hex (s : string) : bool :=
  match s with
  | String "#" rest =>
      (String.length rest =? 6)%nat && forallb is_hex_digit (list_ascii_of_string rest)
  | _ => false
  end.












(** The pattern sets the enumerator may expand: exactly [{dress}], or
    containing [top] and [bottom], or [blazer] with [top] and [bottom], or
    [blazer] with [dress]; or one of these with [shoes] added. *)
Definition base_pattern (set : list string) : bool :=
  (subset set ["dress"] && subset ["dress"] set
   || mem "top" set && mem "bottom" set
   || mem "blazer" set && mem "top" set && mem "bottom" set
   || mem "blazer" set && mem "dress" set)%string.

Definition allowed_pattern (pattern : list string) : bool :=
  base_pattern (set_of pattern)
  || mem "shoes"%string (set_of pattern)
     && base_pattern (filter (fun t => negb (String.eqb t "shoes")) (set_of pattern)).

End Spec.

(** An item as the colour extractor annotates it: every colour it carries is
    a well-formed hex string. *)
Definition annotated {features : Type} (it : @item features) : Prop :=
  Spec.valid_hex (dominant_or_gray it) = true
  /\ Forall (fun c => Spec.valid_hex (hex c) = true) (item_colors it).

(** ** color_analyzer.py: formatting; the neutral test of the recommender *)

Module ColorHex.

(** The digit [d] of ['{:x}']: lower-case. *)
Definition hex_char (d : Z) : ascii :=
  ascii_of_nat (Z.to_nat (if d <? 10 then 48 + d else 87 + d)).

(** The hexadecimal digits of [n >= 0], most significant first; [fuel]
    bounds the number of digits. *)
Fixpoint hex_digits (fuel : nat) (n : Z) (acc : string) : string :=
  match fuel with
  | O => acc
  | S fuel' =>
      let acc := String (hex_char (n mod 16)) acc in
      if n <? 16 then acc else hex_digits fuel' (n / 16) acc
  end.

Definition hex_of (n : Z) : string :=
  hex_digits (S (Z.to_nat (Z.log2 n))) n EmptyString.

(** ['{:02x}'.format(n)]: zero padding to width two, the sign counted. *)
Definition format_02x (n : Z) : string :=
  if n <? 0 then String "-" (hex_of (- n))
  else if n <? 16 then String "0" (hex_of n)
  else hex_of n.

(** [rgb_to_hex] (lines 599-601). *)
Definition rgb_to_hex (c : rgb) : string :=
  let '(r, g, b) := c in
  String "#" (format_02x r ++ format_02x g ++ format_02x b).

(** [OutfitRecommender._is_neutral_color] (outfit_recommender.py, lines
    552-573). *)
Definition _is_neutral_color (hex_color : string) : result bool :=
  c <- hex_to_rgb hex_color ;;
  ' (h, s, v) <- rgb_to_hsv c ;;
  if (s <? 20)%Q then Ok true
  else if (s <? 40)%Q && (20 <=? h)%Q && (h <=? 60)%Q then Ok true
  else Ok false.

(** [s.lower()] on ASCII text. *)
Definition ascii_lower (c : ascii) : ascii :=
  let n := nat_of_ascii c in
  if ((65 <=? n) && (n <=? 90))%nat then ascii_of_nat (n + 32) else c.

Fixpoint lower (s : string) : string :=
  match s with
  | EmptyString => EmptyString
  | String c rest => String (ascii_lower c) (lower rest)
  end.

(** The characters [int(.., 16)] reads as digits. *)
Definition hex_chars : list ascii :=
  list_ascii_of_string "0123456789abcdefABCDEF".

Definition digit_listed (c : ascii) : bool :=
  negb (Spec.is_hex_digit c) || existsb (Ascii.eqb c) hex_chars.

(** A channel value formats to two lower-case digits that parse back to it. *)
Definition channel_ok (x : Z) : bool :=
  match format_02x x with
  | String c1 (String c2 EmptyString) =>
      Spec.is_hex_digit c1 && Spec.is_hex_digit c2
      && Ascii.eqb (ascii_lower c1) c1 && Ascii.eqb (ascii_lower c2) c2
      && match Py.parse_int16 (String c1 (String c2 EmptyString)) with
         | Some v => v =? x
         | None => false
         end
  | _ => false
  end.

(** Two digits parse to a channel that formats to their lower case. *)
Definition digits_ok (c1 c2 : ascii) : bool :=
  match Py.parse_int16 (String c1 (String c2 EmptyString)) with
  | Some v =>
      String.eqb (format_02x v)
        (String (ascii_lower c1) (String (ascii_lower c2) EmptyString))
  | None => false
  end.

End ColorHex.

Import ColorHex.

(** ** Statements about the recommender *)

Section RecommenderStatements.

Context {features : Type}.
Variable compute_similarity : features -> features -> Q.

(** The outfit [o] records what the code computes for its items. *)
Definition recorded (occasion : string) (r : rules) (o : @outfit features) : Prop :=
  _calculate_outfit_score compute_similarity (items o) occasion r = Ok (score o)
  /\ _get_outfit_color_scheme (items o)
     = Ok (color_scheme o, color_scheme_confidence o, dominant_colors o)
  /\ total_items o = length (items o)
  /\ types o = map item_type (items o)
  /\ occasion_of o = occasion.

(** The outfit [o] with another occasion recorded. *)
Definition with_occasion (occasion : string) (o : @outfit features) : @outfit features :=
  {| items := items o;
     score := score o;
     total_items := total_items o;
     occasion_of := occasion;
     types := types o;
     color_scheme := color_scheme o;
     color_scheme_confidence := color_scheme_confidence o;
     dominant_colors := dominant_colors o |}.

(** The items the wardrobe files under the type [t], in wardrobe order. *)
Definition of_type (t : string) (clothing_items : list (@item features))
  : list (@item features) :=
  filter (fun it => String.eqb (type_or_other it) t) clothing_items.

(** Each chosen item has the type the pattern asks for at its position and
    is one of the first five wardrobe items of that type. *)
Definition follows (clothing_items : list (@item features)) (pattern : list string)
  (chosen : list (@item features)) : Prop :=
  Forall2
    (fun it t => item_type it = Some t /\ In it (firstn 5 (of_type t clothing_items)))
    chosen pattern.

(** The contract of [ml_classifier.compute_similarity]: a similarity between
    0 and 1. *)
Definition unit_similarity : Prop :=
  forall a b, (0 <= compute_similarity a b <= 1)%Q.

(** The number of ways to fill a pattern from the wardrobe, at most five
    items being tried for each type. *)
Definition combinations_of (clothing_items : list (@item features))
  (pattern : list string) : nat :=
  fold_right
    (fun t n => (Nat.min 5 (length (of_type t clothing_items)) * n)%nat)
    1%nat pattern.

(** The same, added up over the patterns of a rule. *)
Definition available (clothing_items : list (@item features)) (r : rules) : nat :=
  list_sum (map (combinations_of clothing_items) (preferred_combinations r)).

End RecommenderStatements.

(** Every pattern of the rule needs a dress, or a top and a bottom. *)
Definition needs_dress_or_top_and_bottom (r : rules) : bool :=
  forallb (fun p => mem "dress" p || mem "top" p && mem "bottom" p)%string
    (preferred_combinations r).

(** A pattern as the table of rules has them: it passes the validation, has
    no repeated type, does not ask for [other] and has at most three
    types. *)
Definition table_pattern (pattern : list string) : bool :=
  valid_outfit pattern
  && (length pattern =? length (set_of pattern))%nat
  && negb (mem "other" pattern)
  && (length pattern <=? 3)%nat.

Definition table_rules (r : rules) : bool :=
  forallb table_pattern (preferred_combinations r)
  && existsb (fun p => if list_eq_dec string_dec p ["top"; "bottom"]%string
                       then true else false)
       (preferred_combinations r).

(** ** Enumeration of the characters

    Used to establish facts about [Py.int16] on two-character slices by
    running it on every pair of characters. *)

Definition all_ascii : list ascii := map ascii_of_nat (seq 0 256).

Definition two_digits_ok (c1 c2 : ascii) : bool :=
  match Py.hex_digit_value c1, Py.hex_digit_value c2 with
  | Some d1, Some d2 =>
      match Py.int16 (String c1 (String c2 EmptyString)) with
      | Ok v => (v =? 16 * d1 + d2) && (0 <=? v) && (v <=? 255)
      | Raise _ => false
      end
  | _, _ => true
  end.

Definition digit_not_hash (c : ascii) : bool :=
  match Py.hex_digit_value c with
  | Some _ => negb (Ascii.eqb c "#")
  | None => true
  end.


(** A wardrobe item without secondary colours and without an embedding. *)
Definition plain_item (name type dominant : string) : @item unit :=
  {| item_id := name;
     item_type := Some type;
     item_colors := [];
     dominant_color := Some dominant;
     item_features := None |}.

(** Sample wardrobes, over a classifier whose embeddings carry nothing. *)
Definition no_similarity (a b : unit) : Q := 1.

Definition top_and_bottom : list (@item unit) :=
  [ plain_item "t.jpg" "top" "#ff0000"; plain_item "b.jpg" "bottom" "#0000ff" ].

Definition dress_other_shoes : list (@item unit) :=
  [ plain_item "d.jpg" "dress" "#ff0000"; plain_item "o.jpg" "other" "#808080";
    plain_item "s.jpg" "shoes" "#000000" ].

Definition bottom_and_shoes : list (@item unit) :=
  [ plain_item "b.jpg" "bottom" "#0000ff"; plain_item "s.jpg" "shoes" "#000000" ].

(** ** Comparisons *)

Lemma ltb_lt (x y : Q) : (x <? y)%Q = true <-> (x < y)%Q.
Proof.
  unfold Py.ltb. rewrite negb_true_iff. split; intro H.
  - apply Qnot_le_lt. intro K. apply Qle_bool_iff in K. congruence.
  - destruct (Qle_bool y x) eqn:E; trivial.
    apply Qle_bool_iff in E. exfalso. apply (Qlt_not_le _ _ H E).
Qed.

Lemma ltb_ge (x y : Q) : (x <? y)%Q = false <-> (y <= x)%Q.
Proof.
  unfold Py.ltb. rewrite negb_false_iff. apply Qle_bool_iff.
Qed.

Lemma leb_le (x y : Q) : (x <=? y)%Q = true <-> (x <= y)%Q.
Proof. apply Qle_bool_iff. Qed.

Lemma leb_gt (x y : Q) : (x <=? y)%Q = false <-> (y < x)%Q.
Proof.
  unfold Py.leb. split; intro H.
  - apply Qnot_le_lt. intro K. apply Qle_bool_iff in K. congruence.
  - destruct (Qle_bool x y) eqn:E; trivial.
    apply Qle_bool_iff in E. exfalso. apply (Qlt_not_le _ _ H E).
Qed.





(** ** The harmony score *)



Lemma harmony_unfold (hex1 hex2 : string) (c1 c2 : rgb) (h1 s1 v1 h2 s2 v2 : Q) :
  hex_to_rgb hex1 = Ok c1 -> hex_to_rgb hex2 = Ok c2 ->
  rgb_to_hsv c1 = Ok (h1, s1, v1) -> rgb_to_hsv c2 = Ok (h2, s2, v2) ->
  are_colors_harmonious hex1 hex2 =
    if (s1 <? 20)%Q || (s2 <? 20)%Q then Ok 0.85%Q
    else if (hue_difference h1 h2 <? 15)%Q then
      if (30 <? Qabs (v1 - v2))%Q then Ok 0.88%Q else Ok 0.75%Q
    else Ok (adjust_score (base_score (hue_difference h1 h2)) s1 v1 s2 v2).
Proof.
  intros E1 E2 E3 E4. unfold are_colors_harmonious.
  rewrite E1, E2. cbn [bind]. rewrite E3, E4. reflexivity.
Qed.

Lemma scheme_unfold (hex1 hex2 : string) (c1 c2 : rgb) (h1 s1 v1 h2 s2 v2 : Q) :
  hex_to_rgb hex1 = Ok c1 -> hex_to_rgb hex2 = Ok c2 ->
  rgb_to_hsv c1 = Ok (h1, s1, v1) -> rgb_to_hsv c2 = Ok (h2, s2, v2) ->
  get_color_scheme_type hex1 hex2 =
    if (s1 <? 20)%Q || (s2 <? 20)%Q then Ok "neutral"%string
    else Ok (classify (hue_difference h1 h2)).
Proof.
  intros E1 E2 E3 E4. unfold get_color_scheme_type.
  rewrite E1, E2. cbn [bind]. rewrite E3, E4. reflexivity.
Qed.


(** C3: when either colour has saturation below 20 the harmony score is
    exactly 0.85, whatever the hues, values and saturations are; in
    particular the score of #808080 and #FF0000 is 0.85. *)
Theorem neutral_short_circuit :
  (forall (hex1 hex2 : string) (c1 c2 : rgb) (h1 s1 v1 h2 s2 v2 : Q),
      hex_to_rgb hex1 = Ok c1 -> hex_to_rgb hex2 = Ok c2 ->
      rgb_to_hsv c1 = Ok (h1, s1, v1) -> rgb_to_hsv c2 = Ok (h2, s2, v2) ->
      (s1 < 20)%Q \/ (s2 < 20)%Q ->
      are_colors_harmonious hex1 hex2 = Ok 0.85%Q)
  /\ are_colors_harmonious "#808080" "#FF0000" = Ok 0.85%Q.
Proof.
  split; [|vm_compute; reflexivity].
  intros hex1 hex2 c1 c2 h1 s1 v1 h2 s2 v2 E1 E2 E3 E4 Hs.
  rewrite (harmony_unfold _ _ _ _ _ _ _ _ _ _ E1 E2 E3 E4).
  destruct Hs as [Hs|Hs].
  - rewrite (proj2 (ltb_lt s1 20) Hs). reflexivity.
  - rewrite (proj2 (ltb_lt s2 20) Hs). rewrite orb_true_r. reflexivity.
Qed.



(** ** Hexadecimal colours *)

Lemma in_all_ascii (c : ascii) : In c all_ascii.
Proof.
  unfold all_ascii. rewrite <- (ascii_nat_embedding c).
  apply in_map. apply in_seq. pose proof (nat_ascii_bounded c). lia.
Qed.

Lemma two_digits_ok_all :
  forallb (fun c1 => forallb (two_digits_ok c1) all_ascii) all_ascii = true.
Proof. vm_compute. reflexivity. Qed.

Lemma digit_not_hash_all : forallb digit_not_hash all_ascii = true.
Proof. vm_compute. reflexivity. Qed.

Lemma int16_two_digits (c1 c2 : ascii) :
  Spec.is_hex_digit c1 = true -> Spec.is_hex_digit c2 = true ->
  exists v, Py.int16 (String c1 (String c2 EmptyString)) = Ok v /\ 0 <= v <= 255.
Proof.
  unfold Spec.is_hex_digit. intros H1 H2.
  pose proof two_digits_ok_all as A.
  rewrite forallb_forall in A. specialize (A c1 (in_all_ascii c1)).
  rewrite forallb_forall in A. specialize (A c2 (in_all_ascii c2)).
  unfold two_digits_ok in A.
  destruct (Py.hex_digit_value c1); [|discriminate].
  destruct (Py.hex_digit_value c2); [|discriminate].
  destruct (Py.int16 (String c1 (String c2 EmptyString))) as [v|]; [|discriminate].
  exists v. split; [reflexivity|]. lia.
Qed.

Lemma hex_digit_not_hash (c : ascii) :
  Spec.is_hex_digit c = true -> Ascii.eqb c "#" = false.
Proof.
  unfold Spec.is_hex_digit. intros H.
  pose proof digit_not_hash_all as A.
  rewrite forallb_forall in A. specialize (A c (in_all_ascii c)).
  unfold digit_not_hash in A.
  destruct (Py.hex_digit_value c); [|discriminate].
  now apply negb_true_iff.
Qed.

(** The shape of a well-formed colour. *)
Lemma valid_hex_shape (s : string) :
  Spec.valid_hex s = true ->
  exists a b c d e f,
    s = String "#" (String a (String b (String c (String d (String e
          (String f EmptyString)))))) /\
    Forall (fun x => Spec.is_hex_digit x = true) [a; b; c; d; e; f].
Proof.
  unfold Spec.valid_hex. intros H.
  destruct s as [|hash rest]; [discriminate|].
  destruct (Ascii.eqb hash "#") eqn:Eh.
  2:{ exfalso. revert H Eh. clear.
      destruct hash as [[] [] [] [] [] [] [] []]; cbn; congruence. }
  apply Ascii.eqb_eq in Eh. subst hash.
  apply andb_true_iff in H. destruct H as [Hl Hd].
  apply Nat.eqb_eq in Hl.
  destruct rest as [|a [|b [|c [|d [|e [|f [|g rest]]]]]]]; try discriminate.
  exists a, b, c, d, e, f. split; [reflexivity|].
  cbn in Hd. repeat (apply andb_true_iff in Hd; destruct Hd as [? Hd]).
  repeat constructor; assumption.
Qed.

(** A well-formed colour parses, to channels between 0 and 255. *)
Lemma hex_to_rgb_valid (s : string) :
  Spec.valid_hex s = true ->
  exists r g b,
    hex_to_rgb s = Ok (r, g, b) /\
    0 <= r <= 255 /\ 0 <= g <= 255 /\ 0 <= b <= 255.
Proof.
  intros H. destruct (valid_hex_shape s H) as (a & b & c & d & e & f & -> & Hd).
  inversion Hd as [|? ? Ha Hd1]; subst. inversion Hd1 as [|? ? Hb Hd2]; subst.
  inversion Hd2 as [|? ? Hc Hd3]; subst. inversion Hd3 as [|? ? Hd' Hd4]; subst.
  inversion Hd4 as [|? ? He Hd5]; subst. inversion Hd5 as [|? ? Hf _]; subst.
  destruct (int16_two_digits a b Ha Hb) as (r & Er & Hr).
  destruct (int16_two_digits c d Hc Hd') as (g & Eg & Hg).
  destruct (int16_two_digits e f He Hf) as (bl & Eb & Hbl).
  exists r, g, bl. split; [|auto].
  unfold hex_to_rgb. cbn [Py.lstrip].
  replace (Ascii.eqb "#" "#") with true by reflexivity.
  rewrite (hex_digit_not_hash a Ha).
  unfold Py.slice2. cbn [substring].
  rewrite Er. cbn [bind]. rewrite Eg. cbn [bind]. rewrite Eb. reflexivity.
Qed.

Lemma colorsys_total (r g b : Q) :
  (0 <= r)%Q -> (0 <= g)%Q -> (0 <= b)%Q ->
  exists h s v, colorsys.rgb_to_hsv r g b = Ok (h, s, v).
Proof.
  intros Hr Hg Hb. unfold colorsys.rgb_to_hsv. cbv zeta.
  destruct (Py.eqb (Qmin (Qmin r g) b) (Qmax (Qmax r g) b)) eqn:E1; [eauto|].
  destruct (Py.eqb (Qmax (Qmax r g) b) 0) eqn:E2; [|eauto].
  exfalso. apply Qeq_bool_iff in E2.
  assert (N : ~ Qmin (Qmin r g) b == Qmax (Qmax r g) b).
  { intro K. apply Qeq_bool_iff in K. unfold Py.eqb in E1. congruence. }
  apply N.
  pose proof (Q.le_max_l (Qmax r g) b). pose proof (Q.le_max_r (Qmax r g) b).
  pose proof (Q.le_max_l r g). pose proof (Q.le_max_r r g).
  assert (0 <= Qmin (Qmin r g) b)%Q.
  { apply Q.min_glb; [apply Q.min_glb|]; assumption. }
  pose proof (Q.le_min_l (Qmin r g) b). pose proof (Q.le_min_l r g).
  lra.
Qed.

Lemma rgb_to_hsv_total (r g b : Z) :
  0 <= r -> 0 <= g -> 0 <= b ->
  exists h s v, rgb_to_hsv (r, g, b) = Ok (h, s, v).
Proof.
  intros Hr Hg Hb. unfold rgb_to_hsv.
  assert (P : forall z : Z, 0 <= z -> (0 <= inject_Z z / 255)%Q).
  { intros z Hz. apply Qle_shift_div_l; [reflexivity|].
    rewrite Qmult_0_l. change 0%Q with (inject_Z 0). now rewrite <- Zle_Qle. }
  destruct (colorsys_total _ _ _ (P r Hr) (P g Hg) (P b Hb)) as (h & s & v & E).
  rewrite E. cbn [bind]. eauto.
Qed.

(** ** The range of the harmony score *)

Lemma base_score_range (d : Q) : (0.55 <= base_score d <= 0.95)%Q.
Proof.
  unfold base_score.
  repeat match goal with
    | |- context [if ?c then _ else _] => destruct c
    end; lra.
Qed.

Lemma adjust_score_range (b s1 v1 s2 v2 : Q) :
  (0.5 <= b <= 1)%Q -> (0.5 <= adjust_score b s1 v1 s2 v2 <= 1)%Q.
Proof.
  intros Hb. unfold adjust_score. cbv zeta.
  set (x := if Py.ltb 25 (Qabs (v1 - v2)) then Qmin (b + 0.05) 1.0 else b).
  assert (Hx : (0.5 <= x <= 1)%Q).
  { subst x. destruct (Py.ltb 25 (Qabs (v1 - v2))); [|exact Hb].
    destruct (Q.min_spec (b + 0.05) 1.0) as [[? E]|[? E]]; rewrite E; lra. }
  destruct (Py.ltb 60 (Qabs (s1 - s2))); [|exact Hx].
  destruct (Q.max_spec (x - 0.05) 0.5) as [[? E]|[? E]]; rewrite E; lra.
Qed.

Lemma harmony_bounds (hex1 hex2 : string) (q : Q) :
  are_colors_harmonious hex1 hex2 = Ok q -> (0.5 <= q <= 1.0)%Q.
Proof.
  unfold are_colors_harmonious.
  destruct (hex_to_rgb hex1) as [c1|]; [|discriminate].
  destruct (hex_to_rgb hex2) as [c2|]; [|discriminate]. cbn [bind].
  destruct (rgb_to_hsv c1) as [[[h1 s1] v1]|]; [|discriminate].
  destruct (rgb_to_hsv c2) as [[[h2 s2] v2]|]; [|discriminate]. cbn [bind].
  cbv zeta.
  destruct (_ || _).
  { intros [= <-]. lra. }
  destruct (Py.ltb (hue_difference h1 h2) 15).
  { destruct (Py.ltb 30 _); intros [= <-]; lra. }
  intros [= <-].
  pose proof (base_score_range (hue_difference h1 h2)).
  pose proof (adjust_score_range (base_score (hue_difference h1 h2)) s1 v1 s2 v2).
  lra.
Qed.

Lemma harmony_total (hex1 hex2 : string) :
  Spec.valid_hex hex1 = true -> Spec.valid_hex hex2 = true ->
  exists q, are_colors_harmonious hex1 hex2 = Ok q.
Proof.
  intros V1 V2.
  destruct (hex_to_rgb_valid _ V1) as (r1 & g1 & b1 & E1 & ? & ? & ?).
  destruct (hex_to_rgb_valid _ V2) as (r2 & g2 & b2 & E2 & ? & ? & ?).
  destruct (rgb_to_hsv_total r1 g1 b1) as (h1 & s1 & v1 & E3); try lia.
  destruct (rgb_to_hsv_total r2 g2 b2) as (h2 & s2 & v2 & E4); try lia.
  rewrite (harmony_unfold _ _ _ _ _ _ _ _ _ _ E1 E2 E3 E4).
  destruct (_ || _); [eauto|].
  destruct (Py.ltb (hue_difference h1 h2) 15); [|eauto].
  destruct (Py.ltb 30 _); eauto.
Qed.

(** C10: the pairwise harmony score is never below 0.5 and never above
    1.0, and every pair of well-formed hex colours has a score. *)
Theorem harmony_range :
  (forall (hex1 hex2 : string) (q : Q),
      are_colors_harmonious hex1 hex2 = Ok q -> (0.5 <= q <= 1.0)%Q)
  /\ (forall hex1 hex2 : string,
         Spec.valid_hex hex1 = true -> Spec.valid_hex hex2 = true ->
         exists q, are_colors_harmonious hex1 hex2 = Ok q /\ (0.5 <= q <= 1.0)%Q).
Proof.
  split; [exact harmony_bounds|].
  intros hex1 hex2 V1 V2.
  destruct (harmony_total hex1 hex2 V1 V2) as (q & E).
  exists q. split; [exact E|]. exact (harmony_bounds _ _ _ E).
Qed.

Lemma scheme_total (hex1 hex2 : string) :
  Spec.valid_hex hex1 = true -> Spec.valid_hex hex2 = true ->
  exists name, get_color_scheme_type hex1 hex2 = Ok name.
Proof.
  intros V1 V2.
  destruct (hex_to_rgb_valid _ V1) as (r1 & g1 & b1 & E1 & ? & ? & ?).
  destruct (hex_to_rgb_valid _ V2) as (r2 & g2 & b2 & E2 & ? & ? & ?).
  destruct (rgb_to_hsv_total r1 g1 b1) as (h1 & s1 & v1 & E3); try lia.
  destruct (rgb_to_hsv_total r2 g2 b2) as (h2 & s2 & v2 & E4); try lia.
  rewrite (scheme_unfold _ _ _ _ _ _ _ _ _ _ E1 E2 E3 E4).
  destruct (_ || _); eauto.
Qed.

Lemma get_color_name_total (hex_color : string) :
  Spec.valid_hex hex_color = true ->
  exists name, get_color_name hex_color = Ok name.
Proof.
  intros V.
  destruct (hex_to_rgb_valid _ V) as (r & g & b & E & ? & ? & ?).
  destruct (rgb_to_hsv_total r g b) as (h & s & v & E'); try lia.
  unfold get_color_name. rewrite E. cbn [bind]. rewrite E'. cbn [bind].
  repeat match goal with
    | |- context [if ?c then _ else _] => destruct c
    end; eauto.
Qed.

(** C9 (amended): a well-formed colour, [#] followed by six hexadecimal
    digits, always parses, to three channels between 0 and 255, and the
    functions that take hex colours return on well-formed ones; when
    [hex_to_rgb] fails it raises [ValueError], the only error it has, and
    the failure reaches the caller of [are_colors_harmonious],
    [get_color_scheme_type] and [get_color_name] unchanged. *)
Theorem hex_parsing_errors :
  (forall s : string,
      Spec.valid_hex s = true ->
      exists r g b,
        hex_to_rgb s = Ok (r, g, b) /\
        0 <= r <= 255 /\ 0 <= g <= 255 /\ 0 <= b <= 255)
  /\ (forall a b : string,
         Spec.valid_hex a = true -> Spec.valid_hex b = true ->
         exists q scheme name,
           are_colors_harmonious a b = Ok q
           /\ get_color_scheme_type a b = Ok scheme
           /\ get_color_name a = Ok name)
  /\ (forall (s : string) (e : exn), hex_to_rgb s = Raise e -> e = ValueError)
  /\ (forall (a b : string) (e : exn),
         hex_to_rgb a = Raise e ->
         are_colors_harmonious a b = Raise e
         /\ get_color_scheme_type a b = Raise e
         /\ get_color_name a = Raise e)
  /\ (forall (a b : string) (c : rgb) (e : exn),
         hex_to_rgb a = Ok c -> hex_to_rgb b = Raise e ->
         are_colors_harmonious a b = Raise e
         /\ get_color_scheme_type a b = Raise e).
Proof.
  split; [exact hex_to_rgb_valid|]. split.
  { intros a b Va Vb.
    destruct (harmony_total a b Va Vb) as (q & ->).
    destruct (scheme_total a b Va Vb) as (n & ->).
    destruct (get_color_name_total a Va) as (m & ->).
    exists q, n, m. repeat split. }
  split; [|split].
  - intros s e. unfold hex_to_rgb, Py.int16.
    repeat match goal with
      | |- context [Py.parse_int16 ?x] => destruct (Py.parse_int16 x)
      end; cbn [bind]; congruence.
  - intros a b e E. unfold are_colors_harmonious, get_color_scheme_type, get_color_name.
    rewrite E. cbn [bind]. auto.
  - intros a b c e Ea Eb. unfold are_colors_harmonious, get_color_scheme_type.
    rewrite Ea, Eb. cbn [bind]. auto.
Qed.

(** ** The enumerator *)

Section RecommenderFacts.

Context {features : Type}.
Variable compute_similarity : features -> features -> Q.

Implicit Types (c : list (@item features)) (cs : list (list (@item features))).
Implicit Types (outfits pre res big g : list (@outfit features)).
Implicit Types (occasion : string) (r : rules) (cap : Z).

Lemma nodup_length_le {A : Type} (dec : forall a b : A, {a = b} + {a <> b})
  (l : list A) : (length (nodup dec l) <= length l)%nat.
Proof.
  induction l as [|a l IH]; cbn; [lia|].
  destruct (in_dec dec a l); cbn; lia.
Qed.

Lemma nodup_length_NoDup {A : Type} (dec : forall a b : A, {a = b} + {a <> b})
  (l : list A) : length (nodup dec l) = length l -> NoDup l.
Proof.
  induction l as [|a l IH]; cbn; intros H; [constructor|].
  pose proof (nodup_length_le dec l) as L.
  destruct (in_dec dec a l) as [i|n]; cbn in H; [lia|].
  constructor; [exact n|]. apply IH. lia.
Qed.

Lemma len_app {A : Type} (a b : list A) : len (a ++ b) = len a + len b.
Proof. unfold len. rewrite length_app. lia. Qed.

Lemma len_nonneg {A : Type} (a : list A) : 0 <= len a.
Proof. unfold len. lia. Qed.

(** [complete] does not read the accumulator: it appends to it what it
    appends to the empty list. *)
Lemma complete_shift occasion r c outfits :
  complete compute_similarity occasion r c outfits =
    (g <- complete compute_similarity occasion r c [] ;; Ok (outfits ++ g)).
Proof.
  unfold complete. cbv zeta.
  destruct (negb _); cbn [bind]; [now rewrite app_nil_r|].
  destruct (_calculate_outfit_score _ _ _ _) as [s|]; cbn [bind]; [|reflexivity].
  destruct (_get_outfit_color_scheme _) as [[[sch conf] cols]|]; cbn [bind];
    [|reflexivity].
  destruct (Py.leb 0.50 s); cbn [bind]; [reflexivity|now rewrite app_nil_r].
Qed.

(** From the empty accumulator [complete] returns nothing or one accepted
    outfit made of the completed assignment. *)
Lemma complete_nil occasion r c g :
  complete compute_similarity occasion r c [] = Ok g ->
  g = [] \/ exists o, g = [o] /\ well_formed o /\ items o = c.
Proof.
  unfold complete. cbv zeta.
  destruct (negb _) eqn:En; [intros [= <-]; now left|].
  destruct (_calculate_outfit_score _ _ _ _) as [s|]; cbn [bind]; [|discriminate].
  destruct (_get_outfit_color_scheme _) as [[[sch conf] cols]|]; cbn [bind];
    [|discriminate].
  destruct (Py.leb 0.50 s) eqn:Es; intros [= <-]; [|now left].
  right. eexists. split; [reflexivity|]. split; [|reflexivity].
  split; cbn.
  - now apply leb_le.
  - apply negb_false_iff, Nat.eqb_eq in En.
    apply (nodup_length_NoDup option_string_dec). unfold set_of_types in En. lia.
Qed.

Lemma scan_full occasion r cap cs outfits :
  cap <= len outfits -> scan compute_similarity occasion r cap cs outfits = Ok outfits.
Proof.
  intros H. destruct cs as [|c cs]; cbn; [reflexivity|].
  now rewrite (proj2 (Z.leb_le _ _) H).
Qed.

Lemma bind_assoc {A B C : Type} (m : result A) (f : A -> result B)
  (g : B -> result C) :
  bind (bind m f) g = bind m (fun a => bind (f a) g).
Proof. destruct m; reflexivity. Qed.

Lemma bind_ext {A B : Type} (m : result A) (f g : A -> result B) :
  (forall a, f a = g a) -> bind m f = bind m g.
Proof. intros E. destruct m; cbn; [apply E|reflexivity]. Qed.

Lemma scan_app occasion r cap (a b : list (list (@item features))) outfits :
  scan compute_similarity occasion r cap (a ++ b) outfits =
    (outfits' <- scan compute_similarity occasion r cap a outfits ;;
     scan compute_similarity occasion r cap b outfits').
Proof.
  revert outfits. induction a as [|c a IH]; intros outfits; cbn; [reflexivity|].
  destruct (cap <=? len outfits) eqn:E.
  - cbn. symmetry. apply scan_full. now apply Z.leb_le.
  - rewrite bind_assoc. apply bind_ext. intros o. apply IH.
Qed.

(** The scan under a cap, started from an accumulator, is the scan from the
    empty accumulator under what remains of the cap. *)
Lemma scan_shift occasion r cap cs pre outfits :
  scan compute_similarity occasion r cap cs (pre ++ outfits) =
    (g <- scan compute_similarity occasion r (cap - len pre) cs outfits ;; Ok (pre ++ g)).
Proof.
  revert outfits. induction cs as [|c cs IH]; intros outfits; cbn; [reflexivity|].
  rewrite len_app.
  replace (cap - len pre <=? len outfits) with (cap <=? len pre + len outfits)
    by (destruct (Z.leb_spec cap (len pre + len outfits));
        destruct (Z.leb_spec (cap - len pre) (len outfits)); lia).
  destruct (cap <=? len pre + len outfits); [reflexivity|].
  rewrite (complete_shift _ _ _ (pre ++ outfits)), (complete_shift _ _ _ outfits).
  rewrite !bind_assoc. apply bind_ext. intros g. cbn [bind].
  rewrite <- app_assoc. apply IH.
Qed.

(** What a scan returns: the accumulator followed by accepted outfits,
    within the cap. *)
Lemma scan_inv occasion r cap cs outfits res :
  scan compute_similarity occasion r cap cs outfits = Ok res ->
  exists more,
    res = outfits ++ more /\ Forall well_formed more
    /\ len res <= Z.max cap (len outfits).
Proof.
  revert outfits. induction cs as [|c cs IH]; intros outfits; cbn.
  - intros [= <-]. exists []. rewrite app_nil_r. repeat split; [constructor|lia].
  - destruct (Z.leb_spec cap (len outfits)) as [Hc|Hc].
    + intros [= <-]. exists []. rewrite app_nil_r. repeat split; [constructor|lia].
    + rewrite complete_shift.
      destruct (complete compute_similarity occasion r c []) as [g|] eqn:Eg; cbn [bind]; [|discriminate].
      intros H. destruct (IH _ H) as (more & -> & Hm & Hl).
      rewrite <- app_assoc. exists (g ++ more). split; [reflexivity|].
      rewrite <- app_assoc in Hl. rewrite !len_app in Hl. rewrite !len_app.
      destruct (complete_nil _ _ _ _ Eg) as [->|(o & -> & Ho & _)].
      * split; [exact Hm|]. cbn in *. lia.
      * split; [constructor; assumption|].
        change (len [o]) with 1 in *. lia.
Qed.


(** [generate_recursive] is the scan of its leaves.  At the base case the
    cap is not consulted, so the accumulator must be below it there; every
    recursive call is made below the cap. *)
Lemma generate_recursive_scan items_by_type occasion r cap :
  forall (pattern_rest : list string) c (used_types : list string) outfits,
    pattern_rest <> [] \/ len outfits < cap ->
    generate_recursive compute_similarity items_by_type occasion r cap
      pattern_rest c used_types outfits =
    scan compute_similarity occasion r cap
      (candidates items_by_type pattern_rest c used_types) outfits.
Proof.
  induction pattern_rest as [|t rest IH]; intros c used outfits H.
  - destruct H as [H|H]; [congruence|]. cbn.
    rewrite (proj2 (Z.leb_gt _ _) H).
    destruct (complete compute_similarity occasion r c outfits); reflexivity.
  - cbn [generate_recursive candidates].
    destruct (Z.leb_spec cap (len outfits)) as [Hc|Hc].
    { symmetry. apply scan_full. exact Hc. }
    destruct (mem t used); [reflexivity|].
    generalize (firstn 5 (get_or items_by_type t [])). intros l.
    clear H Hc. revert outfits.
    induction l as [|it l IHl]; intros outfits; [reflexivity|].
    cbn [flat_map]. rewrite scan_app.
    destruct (Z.leb_spec cap (len outfits)) as [Hc|Hc].
    { rewrite (scan_full _ _ _ _ _ Hc). cbn [bind].
      symmetry. apply scan_full. exact Hc. }
    destruct (type_is it t); cbn [negb].
    + rewrite (IH _ _ _ (or_intror Hc)). apply bind_ext. intros o. apply IHl.
    + cbn [scan bind]. apply IHl.
Qed.

Lemma _generate_combinations_scan items_by_type occasion r cap
  (combination_pattern : list string) :
  _generate_combinations compute_similarity items_by_type occasion r cap
    combination_pattern =
  scan compute_similarity occasion r cap
    (pattern_candidates items_by_type combination_pattern) [].
Proof.
  unfold _generate_combinations, pattern_candidates. cbv zeta.
  destruct (negb (subset _ _)); [reflexivity|].
  destruct (negb (_ =? _)%nat); [reflexivity|].
  destruct (negb (valid_outfit combination_pattern)) eqn:Ev; [reflexivity|].
  apply generate_recursive_scan. left. intros ->. discriminate Ev.
Qed.

Lemma try_combinations_scan items_by_type occasion r (max_outfits : Z)
  (combinations : list (list string)) outfits :
  try_combinations compute_similarity items_by_type occasion r max_outfits
    combinations outfits =
  scan compute_similarity occasion r max_outfits
    (flat_map (pattern_candidates items_by_type) combinations) outfits.
Proof.
  revert outfits. induction combinations as [|p ps IH]; intros outfits;
    [reflexivity|].
  cbn [try_combinations flat_map]. rewrite scan_app.
  rewrite _generate_combinations_scan.
  pose proof (scan_shift occasion r max_outfits
                (pattern_candidates items_by_type p) outfits []) as S.
  rewrite app_nil_r in S. rewrite S. clear S.
  rewrite bind_assoc. apply bind_ext. intros g. cbn [bind].
  destruct (Z.leb_spec max_outfits (len (outfits ++ g))) as [Hc|Hc].
  - symmetry. apply scan_full. exact Hc.
  - apply IH.
Qed.

(** The sort. *)
Lemma insert_by_score_perm (o : @outfit features) l :
  Permutation (o :: l) (insert_by_score o l).
Proof.
  induction l as [|o' l IH]; cbn; [reflexivity|].
  destruct (Py.ltb (score o) (score o')); [|reflexivity].
  rewrite perm_swap. now apply perm_skip.
Qed.

Lemma sort_by_score_perm (l : list (@outfit features)) :
  Permutation l (sort_by_score l).
Proof.
  induction l as [|o l IH]; cbn; [constructor|].
  rewrite <- insert_by_score_perm. now apply perm_skip.
Qed.

Lemma insert_by_score_descending (o : @outfit features) l :
  descending l -> descending (insert_by_score o l).
Proof.
  unfold descending. induction l as [|o' l IH]; intros H; cbn.
  - repeat constructor.
  - inversion H as [|? ? Hs Hf]; subst.
    destruct (Py.ltb (score o) (score o')) eqn:E.
    + apply ltb_lt in E. constructor; [now apply IH|].
      rewrite <- insert_by_score_perm. constructor; [lra|exact Hf].
    + apply ltb_ge in E. constructor; [exact H|].
      constructor; [exact E|].
      eapply Forall_impl; [|exact Hf]. cbn. intros a Ha. lra.
Qed.

Lemma sort_by_score_descending (l : list (@outfit features)) :
  descending (sort_by_score l).
Proof.
  induction l as [|o l IH]; cbn; [constructor|].
  now apply insert_by_score_descending.
Qed.

Lemma in_firstn {A : Type} (n : nat) (l : list A) (x : A) :
  In x (firstn n l) -> In x l.
Proof.
  intros H. rewrite <- (firstn_skipn n l). apply in_or_app. now left.
Qed.

Lemma descending_firstn (n : nat) (l : list (@outfit features)) :
  descending l -> descending (firstn n l).
Proof.
  unfold descending. revert n. induction l as [|o l IH]; intros n H.
  - rewrite firstn_nil. constructor.
  - destruct n; cbn; [constructor|].
    inversion H as [|? ? Hs Hf]; subst. constructor; [now apply IH|].
    apply Forall_forall. intros x Hx. rewrite Forall_forall in Hf.
    apply Hf. eapply in_firstn. exact Hx.
Qed.

Lemma slice_to_firstn {A : Type} (n : Z) (l : list A) :
  exists k, Py.slice_to n l = firstn k l /\ (0 <= n -> k = Z.to_nat n).
Proof.
  unfold Py.slice_to. destruct (Z.ltb_spec n 0); eexists; split;
    try reflexivity; lia.
Qed.

(** What [recommend_outfits] returns on a non-empty wardrobe. *)
Lemma recommend_outfits_scan (clothing_items : list (@item features)) occasion
  (max_outfits items_per_outfit : Z) :
  clothing_items <> [] ->
  recommend_outfits compute_similarity clothing_items occasion max_outfits
    items_per_outfit =
  (found <- scan compute_similarity occasion
              (get_or occasion_rules occasion casual_rules) max_outfits
              (flat_map (pattern_candidates (group_by_type clothing_items))
                 (preferred_combinations
                    (get_or occasion_rules occasion casual_rules))) [] ;;
   Ok (Py.slice_to max_outfits (sort_by_score found))).
Proof.
  intros H. unfold recommend_outfits.
  destruct clothing_items; [congruence|]. cbv zeta.
  rewrite try_combinations_scan. reflexivity.
Qed.

(** ** Totality of the colour component *)

Lemma in_pairs {A : Type} (l : list A) (a b : A) :
  In (a, b) (pairs l) -> In a l /\ In b l.
Proof.
  induction l as [|x l IH]; cbn; [tauto|].
  intros H. apply in_app_or in H. destruct H as [H|H].
  - apply in_map_iff in H. destruct H as (y & [= <- <-] & Hy). auto.
  - destruct (IH H). auto.
Qed.

Lemma pairwise_total (ps : list (string * string)) :
  Forall (fun p => Spec.valid_hex (fst p) = true /\ Spec.valid_hex (snd p) = true) ps ->
  exists harmony_scores scheme_types,
    pairwise ps = Ok (harmony_scores, scheme_types).
Proof.
  induction 1 as [|[a b] ps [Va Vb] _ (hs & ts & IH)]; cbn; [eauto|].
  destruct (harmony_total a b Va Vb) as (q & ->).
  destruct (scheme_total a b Va Vb) as (n & ->). cbn [bind].
  rewrite IH. cbn [bind]. eauto.
Qed.

Lemma color_harmony_total (outfit_items : list (@item features))
  (style : string) :
  Forall (fun x => Spec.valid_hex x = true) (harmony_colors outfit_items) ->
  exists color_score, _calculate_color_harmony outfit_items style = Ok color_score.
Proof.
  intros V. unfold _calculate_color_harmony.
  destruct (_ <? _)%nat; [eauto|].
  destruct (pairwise_total (pairs (harmony_colors outfit_items)))
    as (hs & ts & ->).
  - apply Forall_forall. intros [a b] H. apply in_pairs in H.
    rewrite Forall_forall in V. cbn. split; apply V; tauto.
  - cbn [bind]. destruct hs; eauto.
Qed.

(** ** Totality on annotated wardrobes *)

Lemma harmony_colors_valid (outfit_items : list (@item features)) :
  Forall annotated outfit_items ->
  Forall (fun x => Spec.valid_hex x = true) (harmony_colors outfit_items).
Proof.
  induction 1 as [|it its [Hd Hc] _ IH]; cbn; [constructor|].
  constructor; [exact Hd|]. apply Forall_app. split; [|exact IH].
  destruct (item_colors it) as [|c0 [|c1 cs']]; try constructor.
  - inversion Hc as [|? ? _ Hc']; subst. inversion Hc'; subst. assumption.
  - constructor.
Qed.

Lemma dominant_colors_valid (outfit_items : list (@item features)) :
  Forall annotated outfit_items ->
  Forall (fun x => Spec.valid_hex x = true) (map dominant_or_gray outfit_items).
Proof.
  induction 1 as [|it its [Hd _] _ IH]; cbn; constructor; assumption.
Qed.

Lemma outfit_score_total (outfit_items : list (@item features)) occasion r :
  Forall annotated outfit_items ->
  exists s, _calculate_outfit_score compute_similarity outfit_items occasion r = Ok s.
Proof.
  intros H. unfold _calculate_outfit_score.
  destruct outfit_items as [|it its] eqn:E; [eauto|]. rewrite <- E in *.
  destruct (color_harmony_total outfit_items (color_style r)
              (harmony_colors_valid _ H)) as (q & ->).
  cbn [bind]. eauto.
Qed.

Lemma scheme_tally_total (ps : list (string * string)) :
  Forall (fun p => Spec.valid_hex (fst p) = true /\ Spec.valid_hex (snd p) = true) ps ->
  forall counts, exists counts', scheme_tally ps counts = Ok counts'.
Proof.
  induction 1 as [|[a b] ps [Va Vb] _ IH]; intros counts; cbn; [eauto|].
  destruct (scheme_total a b Va Vb) as (n & ->). cbn [bind]. apply IH.
Qed.

Lemma color_scheme_total (outfit_items : list (@item features)) :
  Forall annotated outfit_items ->
  exists info, _get_outfit_color_scheme outfit_items = Ok info.
Proof.
  intros H. unfold _get_outfit_color_scheme.
  destruct (_ <? _)%nat; [eauto|].
  destruct (scheme_tally_total (pairs (map dominant_or_gray outfit_items)))
    with (counts := @nil (string * Z)) as (d & ->).
  - apply Forall_forall. intros [a b] Hab. apply in_pairs in Hab.
    pose proof (dominant_colors_valid _ H) as V. rewrite Forall_forall in V.
    cbn. split; apply V; tauto.
  - cbn [bind]. destruct d as [|first rest]; [eauto|].
    destruct (max_key first rest). eauto.
Qed.

Lemma complete_total occasion r c outfits :
  Forall annotated c ->
  exists outfits', complete compute_similarity occasion r c outfits = Ok outfits'.
Proof.
  intros H. unfold complete. cbv zeta.
  destruct (negb _); [eauto|].
  destruct (outfit_score_total c occasion r H) as (s & ->). cbn [bind].
  destruct (color_scheme_total c H) as ([[sch conf] cols] & ->). cbn [bind].
  destruct (Py.leb 0.50 s); eauto.
Qed.

Lemma scan_total occasion r cap cs outfits :
  Forall (Forall annotated) cs ->
  exists res, scan compute_similarity occasion r cap cs outfits = Ok res.
Proof.
  intros H. revert outfits. induction H as [|c cs Hc _ IH]; intros outfits; cbn;
    [eauto|].
  destruct (cap <=? len outfits); [eauto|].
  destruct (complete_total occasion r c outfits Hc) as (o & ->). cbn [bind].
  apply IH.
Qed.

Lemma dict_get_in {V : Type} (d : list (string * V)) (key : string) (v : V) :
  dict_get d key = Some v -> In (key, v) d.
Proof.
  induction d as [|[k x] d IH]; cbn; [discriminate|].
  destruct (String.eqb k key) eqn:E.
  - apply String.eqb_eq in E. intros [= ->]. left. now subst.
  - intros H. right. now apply IH.
Qed.

(** The leaves are made of the items already chosen and of wardrobe items. *)
Lemma candidates_items (P : @item features -> Prop)
  (items_by_type : list (string * list (@item features))) :
  (forall k l, In (k, l) items_by_type -> Forall P l) ->
  forall (pattern_rest : list string) c (used_types : list string),
    Forall P c ->
    Forall (Forall P) (candidates items_by_type pattern_rest c used_types).
Proof.
  intros Hd. induction pattern_rest as [|t rest IH]; intros c used Hc;
    cbn [candidates].
  - repeat constructor. exact Hc.
  - destruct (mem t used); [constructor|].
    assert (Hl : Forall P (firstn 5 (get_or items_by_type t []))).
    { unfold get_or. destruct (dict_get items_by_type t) as [l|] eqn:E.
      - apply dict_get_in in E. specialize (Hd _ _ E).
        apply Forall_forall. intros x Hx. rewrite Forall_forall in Hd.
        apply Hd. eapply in_firstn. exact Hx.
      - rewrite firstn_nil. constructor. }
    induction Hl as [|it l Hit _ IHl]; cbn [flat_map]; [constructor|].
    apply Forall_app. split; [|exact IHl].
    destruct (type_is it t); [|constructor].
    apply IH. apply Forall_app. split; [exact Hc|]. repeat constructor. exact Hit.
Qed.

Lemma append_item_items (P : @item features -> Prop) (key : string)
  (it : @item features) (d : list (string * list (@item features))) :
  P it -> (forall k l, In (k, l) d -> Forall P l) ->
  forall k l, In (k, l) (append_item key it d) -> Forall P l.
Proof.
  intros Hit. induction d as [|[k0 l0] d IH]; cbn; intros Hd k l.
  - intros [[= <- <-]|[]]. repeat constructor. exact Hit.
  - destruct (String.eqb k0 key); cbn.
    + intros [[= <- <-]|H].
      * apply Forall_app. split; [apply (Hd k0 l0); now left|].
        repeat constructor. exact Hit.
      * apply (Hd k l). now right.
    + intros [[= <- <-]|H].
      * apply (Hd k0 l0). now left.
      * apply (IH (fun k l H => Hd k l (or_intror H)) k l H).
Qed.

Lemma group_by_type_items (P : @item features -> Prop)
  (clothing_items : list (@item features)) :
  Forall P clothing_items ->
  forall k l, In (k, l) (group_by_type clothing_items) -> Forall P l.
Proof.
  unfold group_by_type.
  assert (G : forall (its : list (@item features)) d,
             Forall P its -> (forall k l, In (k, l) d -> Forall P l) ->
             forall k l,
               In (k, l) (fold_left (fun d it => append_item (type_or_other it) it d)
                            its d) ->
               Forall P l).
  { induction its as [|it its IH]; intros d Hits Hd; cbn; [exact Hd|].
    inversion Hits as [|? ? Hit Hits']; subst.
    apply IH; [exact Hits'|]. now apply append_item_items. }
  intros H. apply G; [exact H|]. intros k l [].
Qed.

Lemma pattern_candidates_items (P : @item features -> Prop)
  (clothing_items : list (@item features)) (combinations : list (list string)) :
  Forall P clothing_items ->
  Forall (Forall P)
    (flat_map (pattern_candidates (group_by_type clothing_items)) combinations).
Proof.
  intros H. induction combinations as [|p ps IH]; cbn; [constructor|].
  apply Forall_app. split; [|exact IH].
  unfold pattern_candidates.
  destruct (negb (subset _ _)); [constructor|].
  destruct (negb (_ =? _)%nat); [constructor|].
  destruct (negb (valid_outfit p)); [constructor|].
  apply candidates_items; [|constructor].
  now apply group_by_type_items.
Qed.

(** On an annotated wardrobe the recommendation always returns a list. *)
Lemma recommend_outfits_total (clothing_items : list (@item features)) occasion
  (max_outfits items_per_outfit : Z) :
  Forall annotated clothing_items ->
  exists recommended,
    recommend_outfits compute_similarity clothing_items occasion max_outfits
      items_per_outfit = Ok recommended.
Proof.
  intros H. destruct clothing_items as [|it its] eqn:Ei; [cbn; eauto|].
  rewrite <- Ei in *. rewrite recommend_outfits_scan by (rewrite Ei; discriminate).
  edestruct scan_total as (res & ->);
    [apply pattern_candidates_items; exact H|].
  cbn [bind]. eauto.
Qed.

Lemma recommend_outfits_invariant (clothing_items : list (@item features))
  occasion (max_outfits items_per_outfit : Z) (recommended : list (@outfit features)) :
  recommend_outfits compute_similarity clothing_items occasion max_outfits
    items_per_outfit = Ok recommended ->
  Forall well_formed recommended
  /\ descending recommended
  /\ (0 <= max_outfits -> len recommended <= max_outfits).
Proof.
  destruct clothing_items as [|it its] eqn:Ei.
  { cbn. intros [= <-]. repeat split; try constructor. cbn. lia. }
  rewrite <- Ei. rewrite recommend_outfits_scan by (rewrite Ei; discriminate).
  destruct (scan _ _ _ _ _ _) as [found|] eqn:Ef; cbn [bind]; [|discriminate].
  intros [= <-].
  destruct (scan_inv _ _ _ _ _ _ Ef) as (more & E & Hw & _). cbn in E. subst more.
  destruct (slice_to_firstn max_outfits (sort_by_score found)) as (k & -> & Hk).
  split; [|split].
  - apply Forall_forall. intros o Ho. rewrite Forall_forall in Hw. apply Hw.
    apply in_firstn in Ho.
    eapply Permutation_in; [symmetry; apply sort_by_score_perm|exact Ho].
  - apply descending_firstn, sort_by_score_descending.
  - intros Hm. rewrite (Hk Hm). unfold len.
    pose proof (firstn_le_length (Z.to_nat max_outfits) (sort_by_score found)).
    lia.
Qed.


(** C7: every list [recommend_outfits] returns holds only outfits whose
    score is at least 0.50 and whose items have pairwise different types, is
    sorted by descending score, and is no longer than [max_outfits] (a
    count, so not negative); on an annotated wardrobe a list is returned. *)
Theorem recommend_outfits_well_formed (clothing_items : list (@item features))
  occasion (max_outfits items_per_outfit : Z) :
  (forall recommended : list (@outfit features),
      recommend_outfits compute_similarity clothing_items occasion max_outfits
        items_per_outfit = Ok recommended ->
      Forall well_formed recommended
      /\ descending recommended
      /\ (0 <= max_outfits -> len recommended <= max_outfits))
  /\ (Forall annotated clothing_items ->
      exists recommended,
        recommend_outfits compute_similarity clothing_items occasion max_outfits
          items_per_outfit = Ok recommended).
Proof.
  split.
  - intros recommended. apply recommend_outfits_invariant.
  - apply recommend_outfits_total.
Qed.


(** ** The outfit score *)

(** C6: the score of a non-empty outfit is 0.40 times its colour harmony
    plus 0.30 times its style similarity plus 0.20 times its occasion fit
    plus 0.10 times its variety, the variety being min(itemCount / 3, 1.0);
    the colour harmony, and with it the score, exists whenever the colours
    of the outfit are well-formed. *)
Theorem outfit_score_weights (outfit_items : list (@item features)) occasion r :
  outfit_items <> [] ->
  (forall color_score,
      _calculate_color_harmony outfit_items (color_style r) = Ok color_score ->
      exists total,
        _calculate_outfit_score compute_similarity outfit_items occasion r = Ok total
        /\ total ==
             0.40 * color_score
             + 0.30 * _calculate_style_similarity compute_similarity outfit_items
             + 0.20 * _calculate_occasion_fit outfit_items r
             + 0.10 * Qmin (inject_Z (len outfit_items) / 3) 1.0)
  /\ (Forall (fun x => Spec.valid_hex x = true) (harmony_colors outfit_items) ->
      exists color_score,
        _calculate_color_harmony outfit_items (color_style r) = Ok color_score).
Proof.
  intros Hne. split; [|apply color_harmony_total].
  intros color_score E. unfold _calculate_outfit_score.
  destruct outfit_items as [|it its]; [congruence|].
  rewrite E. cbn [bind]. eexists. split; [reflexivity|].
  assert (Ev : Qmin (inject_Z (len (it :: its)) / 3.0) 1.0
               == Qmin (inject_Z (len (it :: its)) / 3) 1.0).
  { apply Q.min_compat; [|reflexivity].
    apply Qmult_comp; [reflexivity|]. reflexivity. }
  rewrite Ev. ring.
Qed.

End RecommenderFacts.

(** ** Colour naming *)






(** C9, counterexample: strings that are not [#] followed by six
    hexadecimal digits and still convert. *)
Lemma hex_parsing_counterexample :
  (Spec.valid_hex "#12345" = false /\ hex_to_rgb "#12345" = Ok (18, 52, 5))
  /\ (Spec.valid_hex "FF0000" = false /\ hex_to_rgb "FF0000" = Ok (255, 0, 0))
  /\ (Spec.valid_hex "#FF0000FF" = false
      /\ hex_to_rgb "#FF0000FF" = Ok (255, 0, 0))
  /\ (Spec.valid_hex "#+f-f 1" = false /\ hex_to_rgb "#+f-f 1" = Ok (15, -15, 1)).
Proof. vm_compute. repeat split; reflexivity. Qed.

(** ** Pattern validation *)

Lemma mem_filter_shoes (t : string) (l : list string) :
  String.eqb t "shoes" = false ->
  mem t (filter (fun u => negb (String.eqb u "shoes")) l) = mem t l.
Proof.
  intros Ht. unfold mem. induction l as [|u l IH]; cbn; [reflexivity|].
  destruct (String.eqb u "shoes") eqn:Eu; cbn.
  - rewrite IH. destruct (String.eqb t u) eqn:Etu; [|reflexivity].
    apply String.eqb_eq in Etu. subst u. congruence.
  - now rewrite IH.
Qed.

(** The patterns [valid_outfit] lets through are the allowed ones and, in
    addition, every pattern that contains both [shoes] and [dress]. *)
Lemma valid_outfit_allowed (pattern : list string) :
  valid_outfit pattern =
    Spec.allowed_pattern pattern
    || mem "shoes" (set_of pattern) && mem "dress" (set_of pattern).
Proof.
  unfold valid_outfit, Spec.allowed_pattern, Spec.base_pattern. cbv zeta.
  set (S := set_of pattern).
  set (sr := filter (fun t => negb (String.eqb t "shoes")) S).
  rewrite <- (mem_filter_shoes "dress" S eq_refl). fold sr.
  replace (subset ["dress"%string] sr) with (mem "dress" sr)
    by (cbn; now rewrite andb_true_r).
  destruct (mem "shoes" S), (mem "dress" sr), (mem "top" sr), (mem "bottom" sr),
    (mem "blazer" sr), (subset sr ["dress"%string]),
    (subset S ["dress"%string] && subset ["dress"%string] S),
    (mem "top" S), (mem "bottom" S), (mem "blazer" S), (mem "dress" S);
    reflexivity.
Qed.

Section PatternFacts.

Context {features : Type}.
Variable compute_similarity : features -> features -> Q.

(** A pattern that fails the validation, or repeats a type, is skipped: the
    result is the empty list, not an error. *)
Lemma skipped_pattern (items_by_type : list (string * list (@item features)))
  (occasion : string) (r : rules) (max_combinations : Z) (pattern : list string) :
  valid_outfit pattern = false \/ ~ NoDup pattern ->
  _generate_combinations compute_similarity items_by_type occasion r
    max_combinations pattern = Ok [].
Proof.
  intros H. unfold _generate_combinations. cbv zeta.
  destruct (negb (subset _ _)); [reflexivity|].
  destruct (length pattern =? length (set_of pattern))%nat eqn:El; cbn [negb];
    [|reflexivity].
  destruct H as [H|H]; [now rewrite H|].
  exfalso. apply H. apply Nat.eqb_eq in El.
  apply (nodup_length_NoDup string_dec). unfold set_of in El. lia.
Qed.

End PatternFacts.

(** C5, failing input: the pattern (dress, other, shoes) is none of the
    allowed patterns, and (dress, other) alone is rejected, yet on a
    wardrobe with one dress, one other item and one pair of shoes the
    enumerator expands it into an outfit. *)
Lemma dress_other_shoes_expanded :
  Spec.allowed_pattern ["dress"; "other"; "shoes"]%string = false
  /\ valid_outfit ["dress"; "other"]%string = false
  /\ valid_outfit ["dress"; "other"; "shoes"]%string = true
  /\ exists o,
       _generate_combinations no_similarity (group_by_type dress_other_shoes)
         "casual" casual_rules 5 ["dress"; "other"; "shoes"]%string = Ok [o]
       /\ items o = dress_other_shoes.
Proof.
  repeat split; try (vm_compute; reflexivity).
  eexists. split; vm_compute; reflexivity.
Qed.

(** ** Instances *)

(** Each theorem above that has hypotheses, applied to a concrete input. *)

(** Discharge a hypothesis of an instance by evaluation. *)
Ltac evaluate :=
  first [ vm_compute; reflexivity
        | vm_compute; discriminate
        | vm_compute; intro; discriminate
        | vm_compute; lia ].


Lemma neutral_short_circuit_witness :
  are_colors_harmonious "#808080"%string "#0000FF"%string = Ok 0.85%Q.
Proof.
  eapply (proj1 neutral_short_circuit "#808080"%string "#0000FF"%string);
    [evaluate .. |].
  left. evaluate.
Defined.


Lemma harmony_range_witness :
  exists q, are_colors_harmonious "#3B5998"%string "#FFA500"%string = Ok q /\ (0.5 <= q <= 1.0)%Q.
Proof.
  apply (proj2 harmony_range "#3B5998"%string "#FFA500"%string); evaluate.
Defined.

Lemma hex_parsing_errors_witness :
  exists r g b,
    hex_to_rgb "#3b5998"%string = Ok (r, g, b)
    /\ 0 <= r <= 255 /\ 0 <= g <= 255 /\ 0 <= b <= 255.
Proof.
  apply (proj1 hex_parsing_errors "#3b5998"%string). evaluate.
Defined.


Lemma annotated_top_and_bottom : Forall annotated top_and_bottom.
Proof. repeat constructor. Qed.

Lemma recommend_outfits_well_formed_witness :
  exists recommended,
    recommend_outfits no_similarity top_and_bottom "casual"%string 5 2
      = Ok recommended
    /\ Forall well_formed recommended
    /\ descending recommended
    /\ len recommended <= 5.
Proof.
  destruct (recommend_outfits_well_formed no_similarity top_and_bottom
              "casual"%string 5 2) as [Hinv Htot].
  destruct (Htot annotated_top_and_bottom) as (recommended & E).
  exists recommended. split; [exact E|].
  destruct (Hinv recommended E) as (Hw & Hd & Hl).
  split; [exact Hw|]. split; [exact Hd|]. apply Hl. lia.
Defined.


Lemma outfit_score_weights_witness :
  exists total,
    _calculate_outfit_score no_similarity top_and_bottom "casual"%string
      casual_rules = Ok total
    /\ (total == 0.40 * 0.92 + 0.30 * 0.75 + 0.20 * 0.84 + 0.10 * (2 / 3))%Q.
Proof.
  destruct (outfit_score_weights no_similarity top_and_bottom "casual"%string casual_rules)
    as [H _]; [discriminate|].
  edestruct H as (total & E & Ht); [vm_compute; reflexivity|].
  exists total. split; [exact E|]. rewrite Ht. vm_compute. reflexivity.
Defined.

(** ** Round trips between hex strings and channels *)

Lemma channel_ok_all : forallb channel_ok (map Z.of_nat (seq 0 256)) = true.
Proof. vm_compute. reflexivity. Qed.

Lemma channel_format (x : Z) :
  0 <= x <= 255 ->
  exists c1 c2,
    format_02x x = String c1 (String c2 EmptyString)
    /\ Spec.is_hex_digit c1 = true /\ Spec.is_hex_digit c2 = true
    /\ ascii_lower c1 = c1 /\ ascii_lower c2 = c2
    /\ Py.int16 (String c1 (String c2 EmptyString)) = Ok x.
Proof.
  intros Hx. pose proof channel_ok_all as A. rewrite forallb_forall in A.
  assert (I : In x (map Z.of_nat (seq 0 256))).
  { apply in_map_iff. exists (Z.to_nat x). split; [lia|]. apply in_seq. lia. }
  specialize (A x I). unfold channel_ok in A.
  destruct (format_02x x) as [|c1 [|c2 [|c3 rest]]]; try discriminate.
  repeat (apply andb_true_iff in A; destruct A as [A ?]).
  exists c1, c2. unfold Py.int16.
  destruct (Py.parse_int16 (String c1 (String c2 EmptyString))) as [v|];
    [|discriminate].
  repeat split; try assumption; try (now apply Ascii.eqb_eq).
  f_equal. lia.
Qed.

Lemma digit_listed_all : forallb digit_listed all_ascii = true.
Proof. vm_compute. reflexivity. Qed.

Lemma digits_ok_all :
  forallb (fun c1 => forallb (digits_ok c1) hex_chars) hex_chars = true.
Proof. vm_compute. reflexivity. Qed.

Lemma hex_digit_listed (c : ascii) :
  Spec.is_hex_digit c = true -> In c hex_chars.
Proof.
  intros H. pose proof digit_listed_all as A. rewrite forallb_forall in A.
  specialize (A c (in_all_ascii c)). unfold digit_listed in A.
  rewrite H in A. cbn [negb orb] in A.
  apply existsb_exists in A. destruct A as (x & Hx & E).
  apply Ascii.eqb_eq in E. now subst.
Qed.

Lemma digits_format (c1 c2 : ascii) :
  Spec.is_hex_digit c1 = true -> Spec.is_hex_digit c2 = true ->
  exists v,
    Py.int16 (String c1 (String c2 EmptyString)) = Ok v
    /\ format_02x v = String (ascii_lower c1) (String (ascii_lower c2) EmptyString).
Proof.
  intros H1 H2. pose proof digits_ok_all as A.
  rewrite forallb_forall in A. specialize (A c1 (hex_digit_listed c1 H1)).
  rewrite forallb_forall in A. specialize (A c2 (hex_digit_listed c2 H2)).
  unfold digits_ok in A. unfold Py.int16.
  destruct (Py.parse_int16 (String c1 (String c2 EmptyString))) as [v|];
    [|discriminate].
  exists v. split; [reflexivity|]. now apply String.eqb_eq.
Qed.

(** X1: a colour with channels between 0 and 255 formats to [#] and six
    lower-case hexadecimal digits, and parsing that string gives the
    channels back. *)
Theorem rgb_to_hex_round_trip (r g b : Z) :
  0 <= r <= 255 -> 0 <= g <= 255 -> 0 <= b <= 255 ->
  Spec.valid_hex (rgb_to_hex (r, g, b)) = true
  /\ lower (rgb_to_hex (r, g, b)) = rgb_to_hex (r, g, b)
  /\ hex_to_rgb (rgb_to_hex (r, g, b)) = Ok (r, g, b).
Proof.
  intros Hr Hg Hb.
  destruct (channel_format r Hr) as (r1 & r2 & Er & Hr1 & Hr2 & Lr1 & Lr2 & Pr).
  destruct (channel_format g Hg) as (g1 & g2 & Eg & Hg1 & Hg2 & Lg1 & Lg2 & Pg).
  destruct (channel_format b Hb) as (b1 & b2 & Eb & Hb1 & Hb2 & Lb1 & Lb2 & Pb).
  unfold rgb_to_hex. rewrite Er, Eg, Eb. cbn [append].
  split; [|split].
  - cbn. now rewrite Hr1, Hr2, Hg1, Hg2, Hb1, Hb2.
  - cbn [lower]. rewrite Lr1, Lr2, Lg1, Lg2, Lb1, Lb2. reflexivity.
  - unfold hex_to_rgb. cbn [Py.lstrip].
    replace (Ascii.eqb "#" "#") with true by reflexivity.
    rewrite (hex_digit_not_hash r1 Hr1).
    unfold Py.slice2. cbn [substring].
    rewrite Pr. cbn [bind]. rewrite Pg. cbn [bind]. rewrite Pb. reflexivity.
Qed.

(** X2: parsing a well-formed colour and formatting the channels gives the
    colour back in lower case. *)
Theorem hex_to_rgb_round_trip (s : string) :
  Spec.valid_hex s = true ->
  exists c, hex_to_rgb s = Ok c /\ rgb_to_hex c = lower s.
Proof.
  intros H. destruct (valid_hex_shape s H) as (a & b & c & d & e & f & -> & Hd).
  inversion Hd as [|? ? Ha Hd1]; subst. inversion Hd1 as [|? ? Hb Hd2]; subst.
  inversion Hd2 as [|? ? Hc Hd3]; subst. inversion Hd3 as [|? ? Hd' Hd4]; subst.
  inversion Hd4 as [|? ? He Hd5]; subst. inversion Hd5 as [|? ? Hf _]; subst.
  destruct (digits_format a b Ha Hb) as (r & Er & Fr).
  destruct (digits_format c d Hc Hd') as (g & Eg & Fg).
  destruct (digits_format e f He Hf) as (bl & Eb & Fb).
  exists (r, g, bl). split.
  - unfold hex_to_rgb. cbn [Py.lstrip].
    replace (Ascii.eqb "#" "#") with true by reflexivity.
    rewrite (hex_digit_not_hash a Ha).
    unfold Py.slice2. cbn [substring].
    rewrite Er. cbn [bind]. rewrite Eg. cbn [bind]. rewrite Eb. reflexivity.
  - unfold rgb_to_hex. rewrite Fr, Fg, Fb. reflexivity.
Qed.

Lemma int16_raises (s : string) (e : exn) : Py.int16 s = Raise e -> e = ValueError.
Proof. unfold Py.int16. destruct (Py.parse_int16 s); congruence. Qed.

(** X3: a string with fewer than five characters after its leading [#]
    signs, the empty string among them, makes [hex_to_rgb] raise
    [ValueError]. *)
Theorem hex_to_rgb_short (s : string) :
  (String.length (Py.lstrip "#" s) <= 4)%nat ->
  hex_to_rgb s = Raise ValueError.
Proof.
  intros H. unfold hex_to_rgb. cbv zeta.
  assert (E : Py.int16 (Py.slice2 4 (Py.lstrip "#" s)) = Raise ValueError).
  { destruct (Py.lstrip "#" s) as [|a [|b [|c [|d [|e rest]]]]];
      try reflexivity. cbn in H. lia. }
  destruct (Py.int16 (Py.slice2 0 _)) eqn:E0; cbn [bind];
    [|now rewrite (int16_raises _ _ E0)].
  destruct (Py.int16 (Py.slice2 2 _)) eqn:E2; cbn [bind];
    [|now rewrite (int16_raises _ _ E2)].
  rewrite E. reflexivity.
Qed.

Lemma lstrip_app (s extra : string) :
  Py.lstrip "#" s <> EmptyString ->
  Py.lstrip "#" (s ++ extra) = (Py.lstrip "#" s ++ extra)%string.
Proof.
  induction s as [|a s IH]; cbn; [congruence|].
  destruct (Ascii.eqb a "#"); [exact IH|reflexivity].
Qed.

(** X4: [hex_to_rgb] reads only the first six characters after the leading
    [#] signs: one more [#] in front, or anything after the sixth
    character, changes nothing. *)
Theorem hex_to_rgb_ignores (s extra : string) :
  hex_to_rgb (String "#" s) = hex_to_rgb s
  /\ ((6 <= String.length (Py.lstrip "#" s))%nat ->
      hex_to_rgb (s ++ extra) = hex_to_rgb s).
Proof.
  split; [reflexivity|].
  intros H. unfold hex_to_rgb. cbv zeta.
  rewrite lstrip_app by (destruct (Py.lstrip "#" s); [cbn in H; lia|discriminate]).
  destruct (Py.lstrip "#" s) as [|a [|b [|c [|d [|e [|f rest]]]]]];
    try (cbn in H; lia).
  unfold Py.slice2. cbn [substring append].
  assert (Z0 : forall t, substring 0 0 t = EmptyString)
    by (intros t; destruct t; reflexivity).
  rewrite !Z0. reflexivity.
Qed.

(** ** More on the colour functions *)

Lemma hex_to_rgb_raises (s : string) (e : exn) :
  hex_to_rgb s = Raise e -> e = ValueError.
Proof.
  unfold hex_to_rgb, Py.int16.
  repeat match goal with
    | |- context [Py.parse_int16 ?x] => destruct (Py.parse_int16 x)
    end; cbn [bind]; congruence.
Qed.

Lemma rgb_to_hsv_raises (c : rgb) (e : exn) :
  rgb_to_hsv c = Raise e -> e = ZeroDivisionError.
Proof.
  destruct c as [[r g] b]. unfold rgb_to_hsv, colorsys.rgb_to_hsv. cbv zeta.
  destruct (Py.eqb _ _); cbn [bind]; [discriminate|].
  destruct (Py.eqb _ 0); cbn [bind]; congruence.
Qed.

Lemma mod1_range (x : Q) : (0 <= Py.mod1 x < 1)%Q.
Proof.
  unfold Py.mod1. pose proof (Qfloor_le x) as L. pose proof (Qlt_floor x) as U.
  rewrite inject_Z_plus in U. change (inject_Z 1) with 1%Q in U. lra.
Qed.

Lemma colorsys_range (r g b h s v : Q) :
  (0 <= r <= 1)%Q -> (0 <= g <= 1)%Q -> (0 <= b <= 1)%Q ->
  colorsys.rgb_to_hsv r g b = Ok (h, s, v) ->
  (0 <= h < 1)%Q /\ (0 <= s <= 1)%Q /\ (0 <= v <= 1)%Q.
Proof.
  intros Hr Hg Hb. unfold colorsys.rgb_to_hsv. cbv zeta.
  set (maxc := Qmax (Qmax r g) b). set (minc := Qmin (Qmin r g) b).
  assert (Hmax : (0 <= maxc <= 1)%Q).
  { subst maxc. split.
    - pose proof (Q.le_max_r (Qmax r g) b). lra.
    - apply Q.max_lub; [apply Q.max_lub|]; lra. }
  assert (Hmin : (0 <= minc <= maxc)%Q).
  { subst minc maxc. split.
    - apply Q.min_glb; [apply Q.min_glb|]; lra.
    - pose proof (Q.le_min_r (Qmin r g) b). pose proof (Q.le_max_r (Qmax r g) b).
      lra. }
  destruct (Py.eqb minc maxc) eqn:E1.
  { intros [= <- <- <-]. repeat split; lra. }
  destruct (Py.eqb maxc 0) eqn:E2; [discriminate|].
  intros [= <- <- <-].
  assert (Hpos : (0 < maxc)%Q).
  { destruct (Qlt_le_dec 0 maxc) as [|Hle]; [assumption|].
    exfalso. assert (K : maxc == 0) by lra.
    apply Qeq_bool_iff in K. unfold Py.eqb in E2. congruence. }
  split; [apply mod1_range|]. split; [|exact Hmax].
  split.
  - apply Qle_shift_div_l; [exact Hpos|]. lra.
  - apply Qle_shift_div_r; [exact Hpos|]. lra.
Qed.

Lemma colorsys_grey (x : Q) : colorsys.rgb_to_hsv x x x = Ok (0%Q, 0%Q, x).
Proof.
  unfold colorsys.rgb_to_hsv. cbv zeta.
  assert (Mx : Qmax x x = x).
  { unfold Qmax, GenericMinMax.gmax. destruct (x ?= x)%Q; reflexivity. }
  assert (Mn : Qmin x x = x).
  { unfold Qmin, GenericMinMax.gmin. destruct (x ?= x)%Q; reflexivity. }
  rewrite !Mx, !Mn. unfold Py.eqb.
  now rewrite (proj2 (Qeq_bool_iff x x) (Qeq_refl x)).
Qed.

Lemma channel_unit (x : Z) : 0 <= x <= 255 -> (0 <= inject_Z x / 255 <= 1)%Q.
Proof.
  intros [H0 H1]. rewrite Zle_Qle in H0, H1.
  change (inject_Z 0) with 0%Q in H0. change (inject_Z 255) with 255%Q in H1.
  split.
  - apply Qle_shift_div_l; [reflexivity|]. lra.
  - apply Qle_shift_div_r; [reflexivity|]. lra.
Qed.

(** X5: for channels between 0 and 255 [rgb_to_hsv] returns a hue in
    [0, 360) and a saturation and a value in [0, 100]; a grey, whose three
    channels are equal, has hue 0 and saturation 0. *)
Theorem rgb_to_hsv_range (r g b : Z) :
  0 <= r <= 255 -> 0 <= g <= 255 -> 0 <= b <= 255 ->
  exists h s v,
    rgb_to_hsv (r, g, b) = Ok (h, s, v)
    /\ (0 <= h < 360)%Q /\ (0 <= s <= 100)%Q /\ (0 <= v <= 100)%Q
    /\ (r = g -> g = b -> h == 0 /\ s == 0).
Proof.
  intros Hr Hg Hb.
  destruct (rgb_to_hsv_total r g b) as (h & s & v & E); try lia.
  exists h, s, v. split; [exact E|].
  unfold rgb_to_hsv in E.
  destruct (colorsys.rgb_to_hsv (inject_Z r / 255) (inject_Z g / 255)
              (inject_Z b / 255)) as [[[h0 s0] v0]|] eqn:E0; [|discriminate].
  cbn [bind] in E. injection E as <- <- <-.
  destruct (colorsys_range _ _ _ _ _ _ (channel_unit r Hr) (channel_unit g Hg)
              (channel_unit b Hb) E0) as (Hh & Hs & Hv).
  split; [lra|]. split; [lra|]. split; [lra|].
  intros -> ->. rewrite colorsys_grey in E0. injection E0 as <- <- <-.
  split; reflexivity.
Qed.

Lemma hue_difference_sym (h1 h2 : Q) : hue_difference h1 h2 = hue_difference h2 h1.
Proof. unfold hue_difference. now rewrite (Qabs_Qminus h1 h2). Qed.

Lemma adjust_score_sym (b s1 v1 s2 v2 : Q) :
  adjust_score b s1 v1 s2 v2 = adjust_score b s2 v2 s1 v1.
Proof.
  unfold adjust_score. now rewrite (Qabs_Qminus s1 s2), (Qabs_Qminus v1 v2).
Qed.

(** X6: the harmony score and the scheme type of two colours do not depend
    on the order of the two colours, also when the call raises. *)
Theorem harmony_symmetric (hex1 hex2 : string) :
  are_colors_harmonious hex1 hex2 = are_colors_harmonious hex2 hex1
  /\ get_color_scheme_type hex1 hex2 = get_color_scheme_type hex2 hex1.
Proof.
  unfold are_colors_harmonious, get_color_scheme_type.
  destruct (hex_to_rgb hex1) as [c1|e1] eqn:E1;
    destruct (hex_to_rgb hex2) as [c2|e2] eqn:E2; cbn [bind];
    try (split; reflexivity).
  2:{ rewrite (hex_to_rgb_raises _ _ E1), (hex_to_rgb_raises _ _ E2).
      split; reflexivity. }
  destruct (rgb_to_hsv c1) as [[[h1 s1] v1]|e1] eqn:E3;
    destruct (rgb_to_hsv c2) as [[[h2 s2] v2]|e2] eqn:E4; cbn [bind];
    try (split; reflexivity).
  2:{ rewrite (rgb_to_hsv_raises _ _ E3), (rgb_to_hsv_raises _ _ E4).
      split; reflexivity. }
  cbv zeta. rewrite (hue_difference_sym h2 h1), (Qabs_Qminus v2 v1).
  rewrite (orb_comm (Py.ltb s2 20)), (adjust_score_sym _ s2 v2 s1 v1).
  split; reflexivity.
Qed.


(** X8: [_is_neutral_color] accepts every colour of saturation below 20, so
    whenever the scheme type of two colours is neutral, or their harmony
    took the neutral short cut, it accepts one of the two; it raises exactly
    when the scheme classification of the colour with itself raises. *)
Theorem is_neutral_color_covers (hex1 hex2 : string) :
  (get_color_scheme_type hex1 hex2 = Ok "neutral"%string ->
   _is_neutral_color hex1 = Ok true \/ _is_neutral_color hex2 = Ok true)
  /\ (forall e, _is_neutral_color hex1 = Raise e <->
                get_color_scheme_type hex1 hex1 = Raise e).
Proof.
  unfold _is_neutral_color, get_color_scheme_type. split.
  - destruct (hex_to_rgb hex1) as [c1|]; [|discriminate].
    destruct (hex_to_rgb hex2) as [c2|]; [|discriminate]. cbn [bind].
    destruct (rgb_to_hsv c1) as [[[h1 s1] v1]|]; [|discriminate].
    destruct (rgb_to_hsv c2) as [[[h2 s2] v2]|]; [|discriminate]. cbn [bind].
    destruct (Py.ltb s1 20); [auto|]. destruct (Py.ltb s2 20); [auto|].
    cbn [orb]. intros [= H]. exfalso. revert H. unfold classify.
    repeat match goal with
      | |- context [if ?c then _ else _] => destruct c
      end; discriminate.
  - intros e. destruct (hex_to_rgb hex1) as [c1|]; cbn [bind];
      [|split; intros [= ->]; reflexivity].
    destruct (rgb_to_hsv c1) as [[[h1 s1] v1]|]; cbn [bind];
      [|split; intros [= ->]; reflexivity].
    split.
    + repeat match goal with
        | |- context [if ?c then _ else _] => destruct c
        end; discriminate.
    + destruct (_ || _); discriminate.
Qed.

(** ** The wardrobe grouped by type *)

Section RecommenderMore.

Context {features : Type}.
Variable compute_similarity : features -> features -> Q.

Implicit Types (c : list (@item features)) (cs : list (list (@item features))).
Implicit Types (outfits pre res big g : list (@outfit features)).
Implicit Types (occasion : string) (r : rules) (cap : Z).
Implicit Types (d : list (string * list (@item features))).

Lemma dict_get_append_item (key t : string) (it : @item features) d :
  dict_get (append_item key it d) t =
    if String.eqb key t then Some (get_or d t [] ++ [it]) else dict_get d t.
Proof.
  unfold get_or. induction d as [|[k l] d IH]; cbn; [reflexivity|].
  destruct (String.eqb k key) eqn:Ek; cbn.
  - apply String.eqb_eq in Ek. subst k. destruct (String.eqb key t); reflexivity.
  - rewrite IH. destruct (String.eqb k t) eqn:Et; [|reflexivity].
    apply String.eqb_eq in Et. subst k. now rewrite String.eqb_sym, Ek.
Qed.

Lemma keys_append_item (key : string) (it : @item features) d :
  keys (append_item key it d) = if mem key (keys d) then keys d else keys d ++ [key].
Proof.
  unfold keys, mem. induction d as [|[k l] d IH]; cbn; [reflexivity|].
  rewrite (String.eqb_sym key k).
  destruct (String.eqb k key); cbn; [reflexivity|].
  rewrite IH. now destruct (existsb _ _).
Qed.

Lemma mem_In (x : string) (l : list string) : mem x l = true <-> In x l.
Proof.
  unfold mem. rewrite existsb_exists. split.
  - intros (y & Hy & E). apply String.eqb_eq in E. now subst.
  - intros H. exists x. split; [exact H|apply String.eqb_refl].
Qed.

Lemma group_fold_lookup (its : list (@item features)) d (t : string) :
  dict_get (fold_left (fun d it => append_item (type_or_other it) it d) its d) t =
    match dict_get d t with
    | Some l => Some (l ++ of_type t its)
    | None => match of_type t its with [] => None | l => Some l end
    end.
Proof.
  revert d. induction its as [|it its IH]; intros d; cbn [fold_left].
  - cbn. destruct (dict_get d t); [now rewrite app_nil_r|reflexivity].
  - rewrite IH, dict_get_append_item. unfold of_type, get_or. cbn [filter].
    destruct (String.eqb (type_or_other it) t).
    + destruct (dict_get d t); [now rewrite <- app_assoc|reflexivity].
    + reflexivity.
Qed.

Lemma group_fold_keys (its : list (@item features)) d :
  NoDup (keys d) ->
  NoDup (keys (fold_left (fun d it => append_item (type_or_other it) it d) its d)).
Proof.
  revert d. induction its as [|it its IH]; intros d H; cbn [fold_left];
    [exact H|].
  apply IH. rewrite keys_append_item.
  destruct (mem (type_or_other it) (keys d)) eqn:E; [exact H|].
  apply NoDup_app; [exact H|repeat constructor; intros []|].
  intros x Hx [<-|[]]. apply mem_In in Hx. congruence.
Qed.

Lemma dict_get_keys {V : Type} (dd : list (string * V)) (t : string) :
  mem t (keys dd) = match dict_get dd t with Some _ => true | None => false end.
Proof.
  unfold mem, keys. induction dd as [|[k v] dd IH]; cbn; [reflexivity|].
  rewrite (String.eqb_sym t k). destruct (String.eqb k t); [reflexivity|exact IH].
Qed.

(** X9: grouping files every wardrobe item under its type, an item without
    a type under [other]: a type is a key exactly when the wardrobe has an
    item of it, its entry lists those items in wardrobe order, and no key
    occurs twice. *)
Theorem group_by_type_lookup (clothing_items : list (@item features)) :
  NoDup (keys (group_by_type clothing_items))
  /\ forall t,
       dict_get (group_by_type clothing_items) t =
         match of_type t clothing_items with
         | [] => None
         | l => Some l
         end.
Proof.
  split.
  - apply group_fold_keys. constructor.
  - intros t. unfold group_by_type. now rewrite group_fold_lookup.
Qed.

Lemma group_get_or (clothing_items : list (@item features)) (t : string) :
  get_or (group_by_type clothing_items) t [] = of_type t clothing_items.
Proof.
  unfold get_or, group_by_type. rewrite group_fold_lookup. cbn.
  now destruct (of_type t clothing_items).
Qed.

Lemma group_keys (clothing_items : list (@item features)) (t : string) :
  mem t (keys (group_by_type clothing_items)) =
    match of_type t clothing_items with [] => false | _ => true end.
Proof.
  rewrite dict_get_keys. unfold group_by_type. rewrite group_fold_lookup. cbn.
  now destruct (of_type t clothing_items).
Qed.

(** ** What the recommended outfits are made of *)

Lemma candidates_follow (clothing_items : list (@item features)) :
  forall (pattern_rest : list string) c (used_types : list string) c',
    In c' (candidates (group_by_type clothing_items) pattern_rest c used_types) ->
    exists chosen, c' = c ++ chosen /\ follows clothing_items pattern_rest chosen.
Proof.
  induction pattern_rest as [|t rest IH]; intros c used c'; cbn [candidates].
  - intros [<-|[]]. exists []. rewrite app_nil_r. split; [reflexivity|constructor].
  - destruct (mem t used); [intros []|].
    rewrite group_get_or. intros H. apply in_flat_map in H.
    destruct H as (it & Hit & H).
    unfold type_is in H. destruct (item_type it) as [t'|] eqn:Et; [|destruct H].
    destruct (String.eqb t' t) eqn:E; [|destruct H].
    apply String.eqb_eq in E. subst t'.
    destruct (IH _ _ _ H) as (chosen & -> & Hc).
    exists (it :: chosen). rewrite <- app_assoc. split; [reflexivity|].
    constructor; [split; assumption|exact Hc].
Qed.

Lemma pattern_candidates_follow (clothing_items : list (@item features))
  (pattern : list string) c :
  In c (pattern_candidates (group_by_type clothing_items) pattern) ->
  valid_outfit pattern = true /\ NoDup pattern /\ follows clothing_items pattern c.
Proof.
  unfold pattern_candidates.
  destruct (negb (subset _ _)); [intros []|].
  destruct (length pattern =? length (set_of pattern))%nat eqn:El; cbn [negb];
    [|intros []].
  destruct (valid_outfit pattern); cbn [negb]; [|intros []].
  intros H. destruct (candidates_follow _ _ _ _ _ H) as (chosen & -> & Hc).
  split; [reflexivity|]. split; [|exact Hc].
  apply Nat.eqb_eq in El. apply (nodup_length_NoDup string_dec).
  unfold set_of in El. lia.
Qed.

(** From the empty accumulator [complete] returns nothing or the record of
    the completed assignment. *)
Lemma complete_recorded occasion r c g :
  complete compute_similarity occasion r c [] = Ok g ->
  g = [] \/ exists o, g = [o] /\ items o = c /\ recorded compute_similarity occasion r o.
Proof.
  unfold complete. cbv zeta.
  destruct (negb _); [intros [= <-]; now left|].
  destruct (_calculate_outfit_score _ _ _ _) as [s|] eqn:Es; cbn [bind];
    [|discriminate].
  destruct (_get_outfit_color_scheme _) as [[[sch conf] cols]|] eqn:Ec; cbn [bind];
    [|discriminate].
  destruct (Py.leb 0.50 s); intros [= <-]; [|now left].
  right. eexists. split; [reflexivity|]. split; [reflexivity|].
  unfold recorded. cbn. repeat split; assumption.
Qed.

Lemma scan_members occasion r cap cs outfits res :
  scan compute_similarity occasion r cap cs outfits = Ok res ->
  exists more,
    res = outfits ++ more
    /\ Forall (fun o => In (items o) cs /\ recorded compute_similarity occasion r o) more.
Proof.
  revert outfits. induction cs as [|c cs IH]; intros outfits; cbn [scan].
  - intros [= <-]. exists []. now rewrite app_nil_r.
  - destruct (cap <=? len outfits).
    + intros [= <-]. exists []. now rewrite app_nil_r.
    + rewrite complete_shift.
      destruct (complete compute_similarity occasion r c []) as [g|] eqn:Eg;
        cbn [bind]; [|discriminate].
      intros H. destruct (IH _ H) as (more & -> & Hm).
      exists (g ++ more). rewrite <- app_assoc. split; [reflexivity|].
      apply Forall_app. split.
      * destruct (complete_recorded _ _ _ _ Eg) as [->|(o & -> & Ho & Hr)];
          constructor; [|constructor].
        split; [left; now symmetry|exact Hr].
      * eapply Forall_impl; [|exact Hm]. cbn. intros o [Ho Hr].
        split; [now right|exact Hr].
Qed.

(** The outfits [recommend_outfits] returns are among those the scan of the
    leaves accepts. *)
Lemma recommended_members (clothing_items : list (@item features)) occasion
  (max_outfits items_per_outfit : Z) (recommended : list (@outfit features)) :
  recommend_outfits compute_similarity clothing_items occasion max_outfits
    items_per_outfit = Ok recommended ->
  Forall
    (fun o =>
       In (items o)
          (flat_map (pattern_candidates (group_by_type clothing_items))
             (preferred_combinations (get_or occasion_rules occasion casual_rules)))
       /\ recorded compute_similarity occasion
            (get_or occasion_rules occasion casual_rules) o)
    recommended.
Proof.
  destruct clothing_items as [|it its] eqn:Ei.
  { cbn. intros [= <-]. constructor. }
  rewrite <- Ei. rewrite recommend_outfits_scan by (rewrite Ei; discriminate).
  destruct (scan _ _ _ _ _ _) as [found|] eqn:Ef; cbn [bind]; [|discriminate].
  intros [= <-].
  destruct (scan_members _ _ _ _ _ _ Ef) as (more & E & Hm). cbn in E. subst more.
  destruct (slice_to_firstn max_outfits (sort_by_score found)) as (k & -> & _).
  apply Forall_forall. intros o Ho. rewrite Forall_forall in Hm. apply Hm.
  apply in_firstn in Ho.
  eapply Permutation_in; [symmetry; apply sort_by_score_perm|exact Ho].
Qed.

(** X10: every recommended outfit instantiates one of the patterns of the
    occasion's rules, a pattern without repeated types that passes the
    validation: its items have the types of the pattern, in the order of
    the pattern, and each is one of the first five wardrobe items of its
    type. *)
Theorem recommended_follows_pattern (clothing_items : list (@item features))
  occasion (max_outfits items_per_outfit : Z) (recommended : list (@outfit features)) :
  recommend_outfits compute_similarity clothing_items occasion max_outfits
    items_per_outfit = Ok recommended ->
  Forall
    (fun o =>
       exists pattern,
         In pattern (preferred_combinations (get_or occasion_rules occasion casual_rules))
         /\ valid_outfit pattern = true /\ NoDup pattern
         /\ follows clothing_items pattern (items o))
    recommended.
Proof.
  intros H. eapply Forall_impl; [|exact (recommended_members _ _ _ _ _ H)].
  cbn. intros o [Ho _]. apply in_flat_map in Ho. destruct Ho as (p & Hp & Ho).
  exists p. split; [exact Hp|]. now apply pattern_candidates_follow.
Qed.

(** X11: every recommended outfit records what the engine computes for its
    items under the rules of the occasion (those of [casual] for an unknown
    occasion): its score is their outfit score, its colour scheme,
    confidence and colours are those of [_get_outfit_color_scheme], and its
    item count, types and occasion are those of the request. *)
Theorem recommended_recorded (clothing_items : list (@item features))
  occasion (max_outfits items_per_outfit : Z) (recommended : list (@outfit features)) :
  recommend_outfits compute_similarity clothing_items occasion max_outfits
    items_per_outfit = Ok recommended ->
  Forall
    (recorded compute_similarity occasion (get_or occasion_rules occasion casual_rules))
    recommended.
Proof.
  intros H. eapply Forall_impl; [|exact (recommended_members _ _ _ _ _ H)].
  cbn. tauto.
Qed.

(** ** The range of the score *)

Lemma sum_bounds (a b : Q) (l : list Q) :
  Forall (fun x => a <= x <= b)%Q l ->
  forall acc,
    (acc + a * inject_Z (Z.of_nat (length l)) <= fold_left Qplus l acc
     <= acc + b * inject_Z (Z.of_nat (length l)))%Q.
Proof.
  induction 1 as [|x l [Hx1 Hx2] _ IH]; intros acc; cbn [fold_left length].
  - change (inject_Z (Z.of_nat 0)) with 0%Q. lra.
  - specialize (IH (acc + x)%Q).
    rewrite Nat2Z.inj_succ, <- Z.add_1_r, inject_Z_plus.
    change (inject_Z 1) with 1%Q. lra.
Qed.

Lemma mean_bounds (a b : Q) (l : list Q) :
  l <> [] -> Forall (fun x => a <= x <= b)%Q l -> (a <= Py.mean l <= b)%Q.
Proof.
  intros Hne H. pose proof (sum_bounds a b l H 0) as [L U].
  unfold Py.mean, Py.sum.
  assert (Hn : (0 < inject_Z (Z.of_nat (length l)))%Q).
  { change 0%Q with (inject_Z 0). rewrite <- Zlt_Qlt.
    destruct l; [congruence|cbn; lia]. }
  split.
  - apply Qle_shift_div_l; [exact Hn|]. lra.
  - apply Qle_shift_div_r; [exact Hn|]. lra.
Qed.

Lemma pairwise_bounds (ps : list (string * string)) (harmony_scores : list Q)
  (scheme_types : list string) :
  pairwise ps = Ok (harmony_scores, scheme_types) ->
  Forall (fun q => 0.5 <= q <= 1.0)%Q harmony_scores.
Proof.
  revert harmony_scores scheme_types.
  induction ps as [|[a b] ps IH]; intros hs ts; cbn [pairwise].
  - intros [= <- <-]. constructor.
  - destruct (are_colors_harmonious a b) as [q|] eqn:Eq; cbn [bind]; [|discriminate].
    destruct (get_color_scheme_type a b) as [n|]; cbn [bind]; [|discriminate].
    destruct (pairwise ps) as [[hs' ts']|]; cbn [bind]; [|discriminate].
    intros [= <- <-]. constructor; [now apply (harmony_bounds a b)|].
    now apply (IH hs' ts').
Qed.

Lemma boost_bounds (a k : Q) :
  (0.5 <= a <= 1.0)%Q -> (0.5 <= a * k)%Q -> (0.5 <= Qmin (a * k) 1.0 <= 1.0)%Q.
Proof.
  intros Ha Hk. split; [apply Q.min_glb; lra|apply Q.le_min_r].
Qed.

Lemma style_adjust_bounds (color_style : string) (scheme_types : list string)
  (avg_harmony : Q) :
  (0.5 <= avg_harmony <= 1.0)%Q ->
  (0.5 <= style_adjust color_style scheme_types avg_harmony <= 1.0)%Q.
Proof.
  intros Ha. unfold style_adjust. cbv zeta.
  assert (F : forall x : Q, (0.5 <= x <= 1.0)%Q ->
              (0.5 <= (if (1 <? length (set_of scheme_types))%nat
                       then Qmin (x * 1.03) 1.0 else x) <= 1.0)%Q).
  { intros x Hx. destruct (_ <? _)%nat; [apply boost_bounds; lra|exact Hx]. }
  apply F.
  destruct (String.eqb color_style "conservative").
  { destruct (_ || _).
    - pose proof (boost_bounds avg_harmony 1.08 Ha ltac:(lra)) as B.
      destruct (mem _ _ && Py.ltb 0.92 (Qmin (avg_harmony * 1.08) 1.0)) eqn:E;
        [|exact B].
      apply andb_true_iff in E. destruct E as [_ E]. apply ltb_lt in E. lra.
    - destruct (mem _ _ && Py.ltb 0.92 avg_harmony) eqn:E; [|exact Ha].
      apply andb_true_iff in E. destruct E as [_ E]. apply ltb_lt in E. lra. }
  destruct (String.eqb color_style "bold").
  { destruct (mem "complementary" scheme_types).
    - pose proof (boost_bounds avg_harmony 1.10 Ha ltac:(lra)) as B.
      destruct (mem _ _); [apply boost_bounds; lra|exact B].
    - destruct (mem _ _); [apply boost_bounds; lra|exact Ha]. }
  destruct (String.eqb color_style "professional").
  { destruct (mem "neutral" scheme_types).
    - pose proof (boost_bounds avg_harmony 1.12 Ha ltac:(lra)) as B.
      destruct (mem _ _); [apply boost_bounds; lra|exact B].
    - destruct (mem _ _); [apply boost_bounds; lra|exact Ha]. }
  destruct (String.eqb color_style "harmonious").
  { destruct (mem "analogous" scheme_types).
    - pose proof (boost_bounds avg_harmony 1.10 Ha ltac:(lra)) as B.
      destruct (mem _ _); [apply boost_bounds; lra|exact B].
    - destruct (mem _ _); [apply boost_bounds; lra|exact Ha]. }
  destruct (String.eqb color_style "vibrant").
  { destruct (_ || _); [apply boost_bounds; lra|exact Ha]. }
  exact Ha.
Qed.

Lemma color_harmony_bounds (outfit_items : list (@item features))
  (style : string) (color_score : Q) :
  _calculate_color_harmony outfit_items style = Ok color_score ->
  (0.5 <= color_score <= 1.0)%Q.
Proof.
  unfold _calculate_color_harmony.
  destruct (_ <? _)%nat; [intros [= <-]; lra|].
  destruct (pairwise _) as [[hs ts]|] eqn:E; cbn [bind]; [|discriminate].
  pose proof (pairwise_bounds _ _ _ E) as B.
  destruct hs as [|q hs]; intros [= <-]; [lra|].
  apply style_adjust_bounds. apply mean_bounds; [discriminate|exact B].
Qed.

Lemma style_similarity_bounds (outfit_items : list (@item features)) :
  unit_similarity compute_similarity ->
  (0.6 <= _calculate_style_similarity compute_similarity outfit_items <= 1.0)%Q.
Proof.
  intros U. unfold _calculate_style_similarity. cbv zeta.
  destruct (_ <? _)%nat; [lra|]. destruct (_ <? _)%nat; [lra|].
  match goal with |- context [pairs ?l] => generalize (pairs l) end.
  intros ps. destruct ps as [|p ps]; [cbn; lra|].
  assert (B : (0 <= Py.mean (map (fun p => compute_similarity (fst p) (snd p))
                               (p :: ps)) <= 1)%Q).
  { apply mean_bounds; [discriminate|]. apply Forall_forall. intros x Hx.
    apply in_map_iff in Hx. destruct Hx as (y & <- & _). apply U. }
  cbn [map] in *. lra.
Qed.

Lemma occasion_fit_bounds (outfit_items : list (@item features)) r :
  (0.5 <= _calculate_occasion_fit outfit_items r <= 1.0)%Q.
Proof.
  unfold _calculate_occasion_fit. cbv zeta. split.
  - apply Q.le_max_r.
  - apply Q.max_lub; [|lra].
    match goal with |- context [Qabs ?x] => pose proof (Qabs_nonneg x) end. lra.
Qed.

Lemma variety_bounds (outfit_items : list (@item features)) :
  outfit_items <> [] ->
  ((1 # 3) <= Qmin (inject_Z (len outfit_items) / 3.0) 1.0 <= 1.0)%Q.
Proof.
  intros Hne. split; [|apply Q.le_min_r].
  apply Q.min_glb; [|lra].
  assert (H : (1 <= inject_Z (len outfit_items))%Q).
  { change 1%Q with (inject_Z 1). rewrite <- Zle_Qle. unfold len.
    destruct outfit_items; [congruence|cbn; lia]. }
  apply Qle_shift_div_l; [reflexivity|]. lra.
Qed.

Lemma outfit_score_bounds (outfit_items : list (@item features)) occasion r
  (total : Q) :
  unit_similarity compute_similarity -> outfit_items <> [] ->
  _calculate_outfit_score compute_similarity outfit_items occasion r = Ok total ->
  (0.51 <= total <= 1.0)%Q.
Proof.
  intros U Hne. unfold _calculate_outfit_score.
  destruct outfit_items as [|it its] eqn:Ei; [congruence|]. rewrite <- Ei in *.
  destruct (_calculate_color_harmony _ _) as [cs0|] eqn:Ec; cbn [bind];
    [|discriminate].
  intros [= <-].
  pose proof (color_harmony_bounds _ _ _ Ec) as Bc.
  pose proof (style_similarity_bounds outfit_items U) as Bs.
  pose proof (occasion_fit_bounds outfit_items r) as Bo.
  pose proof (variety_bounds outfit_items Hne) as Bv.
  lra.
Qed.

(** X12: with a classifier whose similarities lie between 0 and 1, the
    score of a non-empty outfit lies between 0.51 and 1.0, whatever the
    items, the colours and the rules; so the comparison with the threshold
    0.50 in [generate_recursive] always succeeds. *)
Theorem outfit_score_range (outfit_items : list (@item features)) occasion r
  (total : Q) :
  unit_similarity compute_similarity -> outfit_items <> [] ->
  _calculate_outfit_score compute_similarity outfit_items occasion r = Ok total ->
  (0.51 <= total <= 1.0)%Q /\ (0.50 <=? total)%Q = true.
Proof.
  intros U Hne E. pose proof (outfit_score_bounds _ _ _ _ U Hne E) as B.
  split; [exact B|]. apply leb_le. lra.
Qed.

(** ** Wardrobes without the basic pieces *)

Lemma occasion_rules_need occasion :
  needs_dress_or_top_and_bottom (get_or occasion_rules occasion casual_rules) = true.
Proof.
  unfold get_or, occasion_rules. cbn [dict_get].
  repeat (destruct (String.eqb _ occasion); [reflexivity|]). reflexivity.
Qed.

Lemma subset_missing (t : string) (a b : list string) :
  In t a -> mem t b = false -> subset a b = false.
Proof.
  intros Hin Hm. unfold subset. destruct (forallb _ a) eqn:E; [|reflexivity].
  rewrite forallb_forall in E. specialize (E t Hin). congruence.
Qed.

Lemma pattern_candidates_missing (clothing_items : list (@item features))
  (t : string) (pattern : list string) :
  In t pattern -> of_type t clothing_items = [] ->
  pattern_candidates (group_by_type clothing_items) pattern = [].
Proof.
  intros Hin He. unfold pattern_candidates.
  rewrite (subset_missing t); [reflexivity| |].
  - unfold set_of. now apply nodup_In.
  - now rewrite group_keys, He.
Qed.

(** X13: a wardrobe with no dress and without both a top and a bottom gets
    no recommendation, for every occasion and every cap: the result is the
    empty list, also when colours of the wardrobe are malformed. *)
Theorem recommend_outfits_needs_basics (clothing_items : list (@item features))
  occasion (max_outfits items_per_outfit : Z) :
  of_type "dress" clothing_items = [] ->
  of_type "top" clothing_items = [] \/ of_type "bottom" clothing_items = [] ->
  recommend_outfits compute_similarity clothing_items occasion max_outfits
    items_per_outfit = Ok [].
Proof.
  intros Hd Htb. destruct clothing_items as [|it its] eqn:Ei; [reflexivity|].
  rewrite <- Ei in *. rewrite recommend_outfits_scan by (rewrite Ei; discriminate).
  pose proof (occasion_rules_need occasion) as N.
  unfold needs_dress_or_top_and_bottom in N. rewrite forallb_forall in N.
  assert (E : flat_map (pattern_candidates (group_by_type clothing_items))
                (preferred_combinations (get_or occasion_rules occasion casual_rules))
              = []).
  { induction (preferred_combinations (get_or occasion_rules occasion casual_rules))
      as [|p ps IH]; [reflexivity|].
    cbn [flat_map]. rewrite IH by (intros x Hx; apply N; now right).
    rewrite app_nil_r. specialize (N p (or_introl eq_refl)).
    apply orb_true_iff in N. destruct N as [N|N].
    - apply (pattern_candidates_missing _ "dress"); [now apply mem_In|exact Hd].
    - apply andb_true_iff in N. destruct N as [Nt Nb]. destruct Htb as [H|H].
      + apply (pattern_candidates_missing _ "top"); [now apply mem_In|exact H].
      + apply (pattern_candidates_missing _ "bottom"); [now apply mem_In|exact H]. }
  rewrite E. cbn [scan bind sort_by_score fold_right].
  unfold Py.slice_to. destruct (max_outfits <? 0); now rewrite firstn_nil.
Qed.

(** ** Occasions outside the table *)

Lemma with_occasion_score occasion (o : @outfit features) :
  score (with_occasion occasion o) = score o.
Proof. reflexivity. Qed.

Lemma complete_with_occasion occasion (occasion' : string) r c outfits :
  complete compute_similarity occasion' r c (map (with_occasion occasion') outfits) =
    (res <- complete compute_similarity occasion r c outfits ;;
     Ok (map (with_occasion occasion') res)).
Proof.
  unfold complete. cbv zeta.
  destruct (negb _); [reflexivity|].
  change (_calculate_outfit_score compute_similarity c occasion' r)
    with (_calculate_outfit_score compute_similarity c occasion r).
  destruct (_calculate_outfit_score _ _ _ _) as [s|]; cbn [bind]; [|reflexivity].
  destruct (_get_outfit_color_scheme c) as [[[sch conf] cols]|]; cbn [bind];
    [|reflexivity].
  destruct (Py.leb 0.50 s); cbn [bind]; [|reflexivity].
  now rewrite map_app.
Qed.

Lemma scan_with_occasion occasion (occasion' : string) r cap cs outfits :
  scan compute_similarity occasion' r cap cs (map (with_occasion occasion') outfits) =
    (res <- scan compute_similarity occasion r cap cs outfits ;;
     Ok (map (with_occasion occasion') res)).
Proof.
  revert outfits. induction cs as [|c cs IH]; intros outfits; cbn [scan];
    [reflexivity|].
  replace (len (map (with_occasion occasion') outfits)) with (len outfits)
    by (unfold len; now rewrite length_map).
  destruct (cap <=? len outfits); [reflexivity|].
  rewrite (complete_with_occasion occasion). rewrite !bind_assoc.
  apply bind_ext. intros res. cbn [bind]. apply IH.
Qed.

Lemma insert_by_score_map (f : @outfit features -> @outfit features)
  (o : @outfit features) l :
  (forall x, score (f x) = score x) ->
  insert_by_score (f o) (map f l) = map f (insert_by_score o l).
Proof.
  intros Hf. induction l as [|o' l IH]; cbn; [reflexivity|].
  rewrite !Hf. destruct (Py.ltb (score o) (score o')); cbn; [now rewrite IH|reflexivity].
Qed.

Lemma sort_by_score_map (f : @outfit features -> @outfit features) l :
  (forall x, score (f x) = score x) ->
  sort_by_score (map f l) = map f (sort_by_score l).
Proof.
  intros Hf. unfold sort_by_score.
  induction l as [|o l IH]; cbn [map fold_right]; [reflexivity|].
  rewrite IH. now apply insert_by_score_map.
Qed.

Lemma slice_to_map {A B : Type} (f : A -> B) (n : Z) (l : list A) :
  Py.slice_to n (map f l) = map f (Py.slice_to n l).
Proof.
  unfold Py.slice_to. rewrite length_map.
  destruct (n <? 0); now rewrite firstn_map.
Qed.

(** X14: an occasion that is not in the table of rules is served as
    [casual]: the same outfits with the same scores in the same order, each
    carrying the name of the requested occasion; and it raises exactly when
    [casual] does. *)
Theorem unknown_occasion_as_casual (clothing_items : list (@item features))
  occasion (max_outfits items_per_outfit : Z) :
  dict_get occasion_rules occasion = None ->
  recommend_outfits compute_similarity clothing_items occasion max_outfits
    items_per_outfit =
  (recommended <- recommend_outfits compute_similarity clothing_items "casual"
                    max_outfits items_per_outfit ;;
   Ok (map (with_occasion occasion) recommended)).
Proof.
  intros H. destruct clothing_items as [|it its] eqn:Ei; [reflexivity|].
  rewrite <- Ei. rewrite !recommend_outfits_scan by (rewrite Ei; discriminate).
  assert (E : get_or occasion_rules occasion casual_rules = casual_rules)
    by (unfold get_or; now rewrite H).
  rewrite E.
  change (get_or occasion_rules "casual" casual_rules) with casual_rules.
  pose proof (scan_with_occasion "casual" occasion casual_rules max_outfits
                (flat_map (pattern_candidates (group_by_type clothing_items))
                   (preferred_combinations casual_rules)) []) as S.
  cbn [map] in S. rewrite S. rewrite !bind_assoc. apply bind_ext.
  intros found. cbn [bind].
  rewrite sort_by_score_map by apply with_occasion_score.
  now rewrite slice_to_map.
Qed.

(** ** The colour scheme of an outfit *)

Lemma fold_add_shift (l : list Z) (acc : Z) :
  fold_left Z.add l acc = acc + fold_left Z.add l 0.
Proof.
  revert acc. induction l as [|x l IH]; intros acc; cbn; [lia|].
  rewrite (IH (acc + x)), (IH x). lia.
Qed.

Lemma count_up_inv (scheme : string) (d : list (string * Z)) :
  Forall (fun kv => 1 <= snd kv) d ->
  Forall (fun kv => 1 <= snd kv) (count_up scheme d)
  /\ fold_left Z.add (map snd (count_up scheme d)) 0
     = fold_left Z.add (map snd d) 0 + 1.
Proof.
  induction 1 as [|[k n] d Hn Hd [IH1 IH2]]; cbn [count_up].
  - split; [repeat constructor; cbn; lia|reflexivity].
  - destruct (String.eqb k scheme); cbn [map snd fold_left].
    + split; [constructor; [cbn in *; lia|assumption]|].
      rewrite (fold_add_shift _ (0 + (n + 1))), (fold_add_shift _ (0 + n)). lia.
    + split; [constructor; assumption|].
      rewrite (fold_add_shift _ (0 + n)), IH2, (fold_add_shift _ (0 + n)). lia.
Qed.

Lemma scheme_tally_inv (ps : list (string * string)) :
  forall scheme_counts counted,
    scheme_tally ps scheme_counts = Ok counted ->
    Forall (fun kv => 1 <= snd kv) scheme_counts ->
    Forall (fun kv => 1 <= snd kv) counted
    /\ fold_left Z.add (map snd counted) 0
       = fold_left Z.add (map snd scheme_counts) 0 + Z.of_nat (length ps).
Proof.
  induction ps as [|[a b] ps IH]; intros d d'; cbn [scheme_tally].
  - intros [= <-] H. split; [exact H|]. cbn. lia.
  - destruct (get_color_scheme_type a b) as [n|]; cbn [bind]; [|discriminate].
    intros E H. destruct (count_up_inv n d H) as [C1 C2].
    destruct (IH _ _ E C1) as [I1 I2].
    split; [exact I1|]. rewrite I2, C2. cbn [length]. lia.
Qed.

Lemma max_key_in (best : string * Z) (d : list (string * Z)) :
  In (max_key best d) (best :: d).
Proof.
  revert best. induction d as [|[k n] d IH]; intros best; cbn [max_key];
    [now left|].
  destruct (snd best <? n).
  - destruct (IH (k, n)) as [<-|H]; [right; now left|right; now right].
  - destruct (IH best) as [<-|H]; [now left|right; now right].
Qed.

Lemma member_le_total (d : list (string * Z)) (kv : string * Z) :
  Forall (fun kv => 1 <= snd kv) d -> In kv d ->
  snd kv <= fold_left Z.add (map snd d) 0.
Proof.
  induction 1 as [|[k n] d Hn Hd IH]; [intros []|].
  cbn [map snd fold_left]. rewrite (fold_add_shift _ (0 + n)).
  assert (0 <= fold_left Z.add (map snd d) 0).
  { clear IH. induction Hd as [|[k' n'] d' Hn' _ IH']; cbn; [lia|].
    rewrite (fold_add_shift _ n'). cbn in Hn'. lia. }
  intros [<-|Hin]; [cbn; lia|]. specialize (IH Hin). cbn in Hn. lia.
Qed.

Lemma pairs_length_map {A B : Type} (f : A -> B) (l : list A) :
  length (pairs (map f l)) = length (pairs l).
Proof.
  induction l as [|x l IH]; cbn; [reflexivity|].
  now rewrite !length_app, !length_map, IH.
Qed.

Lemma pairs_nonempty {A : Type} (l : list A) :
  (2 <= length l)%nat -> (1 <= length (pairs l))%nat.
Proof. destruct l as [|x [|y l]]; cbn; lia. Qed.

(** X15: the confidence [_get_outfit_color_scheme] reports is greater than
    0 and at most 1: for two or more items it is a whole number of pairs,
    at least one, divided by the number of pairs of items; and the function
    reports one colour per item, the dominant colour or [#808080] for an
    item without one, except that the empty outfit gets the single colour
    [#808080]. *)
Theorem outfit_color_scheme_confidence (outfit_items : list (@item features))
  (scheme : string) (confidence : Q) (colors : list string) :
  _get_outfit_color_scheme outfit_items = Ok (scheme, confidence, colors) ->
  (0 < confidence <= 1)%Q
  /\ colors = match outfit_items with
              | [] => ["#808080"%string]
              | _ => map dominant_or_gray outfit_items
              end
  /\ ((2 <= length outfit_items)%nat ->
      exists n,
        1 <= n <= len (pairs outfit_items)
        /\ confidence = (inject_Z n / inject_Z (len (pairs outfit_items)))%Q).
Proof.
  unfold _get_outfit_color_scheme. cbv zeta.
  destruct (Nat.ltb_spec (length outfit_items) 2) as [Hl|Hl].
  { intros [= <- <- <-]. split; [lra|]. split.
    - destruct outfit_items as [|it [|it' its]]; [reflexivity|reflexivity|].
      cbn in Hl. lia.
    - intros. lia. }
  destruct (scheme_tally _ _) as [d|] eqn:Et; cbn [bind]; [|discriminate].
  destruct (scheme_tally_inv _ _ _ Et (Forall_nil _)) as [I1 I2].
  rewrite pairs_length_map in I2. cbn [map fold_left] in I2.
  pose proof (pairs_nonempty outfit_items Hl) as Hp.
  destruct d as [|first rest]; [cbn in I2; lia|].
  pose proof (max_key_in first rest) as Hin.
  pose proof (member_le_total _ _ I1 Hin) as Hle.
  rewrite Forall_forall in I1. specialize (I1 _ Hin).
  destruct (max_key first rest) as [dominant_scheme n]. cbn [snd] in *.
  rewrite I2 in *. fold (len (pairs outfit_items)) in *.
  intros [= <- <- <-].
  assert (Hq : (0 < inject_Z (len (pairs outfit_items)))%Q).
  { change 0%Q with (inject_Z 0). rewrite <- Zlt_Qlt. unfold len. lia. }
  assert (Hn : (1 <= inject_Z n <= inject_Z (len (pairs outfit_items)))%Q).
  { change 1%Q with (inject_Z 1). rewrite <- !Zle_Qle. lia. }
  split; [split|split].
  - apply Qlt_shift_div_l; [exact Hq|]. lra.
  - apply Qle_shift_div_r; [exact Hq|]. lra.
  - destruct outfit_items; [cbn in Hl; lia|reflexivity].
  - intros _. exists n. split; [unfold len in *; lia|reflexivity].
Qed.

(** ** How many outfits a pattern gives *)

Lemma flat_map_length_le {A B : Type} (f : A -> list B) (l : list A) (k : nat) :
  (forall x, length (f x) <= k)%nat ->
  (length (flat_map f l) <= length l * k)%nat.
Proof.
  intros H. induction l as [|x l IH]; cbn; [lia|].
  rewrite length_app. specialize (H x). lia.
Qed.

Lemma candidates_length (items_by_type : list (string * list (@item features))) :
  forall (pattern_rest : list string) c (used_types : list string),
    (length (candidates items_by_type pattern_rest c used_types)
     <= 5 ^ length pattern_rest)%nat.
Proof.
  induction pattern_rest as [|t rest IH]; intros c used; cbn [candidates length].
  - cbn. lia.
  - destruct (mem t used); [cbn; lia|].
    etransitivity.
    + apply (flat_map_length_le _ _ (5 ^ length rest)).
      intros it. destruct (type_is it t); [apply IH|cbn; lia].
    + rewrite length_firstn, Nat.pow_succ_r'.
      apply Nat.mul_le_mono_r. lia.
Qed.

Lemma scan_length occasion r cap cs outfits res :
  scan compute_similarity occasion r cap cs outfits = Ok res ->
  (length res <= length outfits + length cs)%nat.
Proof.
  revert outfits. induction cs as [|c cs IH]; intros outfits; cbn [scan length].
  - intros [= <-]. lia.
  - destruct (cap <=? len outfits); [intros [= <-]; lia|].
    rewrite complete_shift.
    destruct (complete compute_similarity occasion r c []) as [g|] eqn:Eg;
      cbn [bind]; [|discriminate].
    intros H. specialize (IH _ H). rewrite length_app in IH.
    destruct (complete_nil _ _ _ _ _ Eg) as [->|(o & -> & _)]; cbn in IH; lia.
Qed.

(** X16: one pattern gives at most [max_combinations] outfits, none when
    [max_combinations] is zero or negative, and at most five to the power
    of the number of its types, since only the first five items of a type
    are tried; each has a score of at least 0.50 and no two items of the
    same type. *)
Theorem generate_combinations_bounds
  (items_by_type : list (string * list (@item features))) occasion r
  (max_combinations : Z) (combination_pattern : list string)
  (generated : list (@outfit features)) :
  _generate_combinations compute_similarity items_by_type occasion r
    max_combinations combination_pattern = Ok generated ->
  len generated <= Z.max max_combinations 0
  /\ (length generated <= 5 ^ length combination_pattern)%nat
  /\ Forall well_formed generated.
Proof.
  rewrite _generate_combinations_scan. intros H.
  destruct (scan_inv _ _ _ _ _ _ _ H) as (more & E & Hw & Hl). cbn in E. subst more.
  split; [exact Hl|]. split; [|exact Hw].
  apply scan_length in H. cbn [length] in H.
  etransitivity; [exact H|]. cbn [Nat.add]. unfold pattern_candidates.
  destruct (negb (subset _ _)); [cbn; lia|].
  destruct (negb (_ =? _)%nat); [cbn; lia|].
  destruct (negb (valid_outfit _)); [cbn; lia|].
  apply candidates_length.
Qed.

(** ** The sort *)

Lemma insert_by_score_stable (q : Q) (o : @outfit features) l :
  filter (fun x => Qeq_bool (score x) q) (insert_by_score o l) =
  filter (fun x => Qeq_bool (score x) q) (o :: l).
Proof.
  induction l as [|o' l IH]; [reflexivity|].
  cbn [insert_by_score]. destruct (Py.ltb (score o) (score o')) eqn:E; [|reflexivity].
  apply ltb_lt in E. cbn [filter] in *. rewrite IH.
  destruct (Qeq_bool (score o) q) eqn:Eo; [|reflexivity].
  destruct (Qeq_bool (score o') q) eqn:Eo'; [|reflexivity].
  apply Qeq_bool_iff in Eo, Eo'. lra.
Qed.

(** X17: the sort of the recommendations is stable: it rearranges the
    outfits into descending order of score and keeps outfits of equal score
    in the order in which they were generated. *)
Theorem sort_by_score_stable (l : list (@outfit features)) :
  Permutation l (sort_by_score l)
  /\ descending (sort_by_score l)
  /\ forall q,
       filter (fun x => Qeq_bool (score x) q) (sort_by_score l) =
       filter (fun x => Qeq_bool (score x) q) l.
Proof.
  split; [apply sort_by_score_perm|]. split; [apply sort_by_score_descending|].
  intros q. unfold sort_by_score.
  induction l as [|o l IH]; [reflexivity|].
  cbn [fold_right]. rewrite insert_by_score_stable. cbn [filter]. now rewrite IH.
Qed.

(** ** How many outfits are recommended *)

Lemma occasion_rules_table occasion :
  table_rules (get_or occasion_rules occasion casual_rules) = true.
Proof.
  unfold get_or, occasion_rules. cbn [dict_get].
  repeat (destruct (String.eqb _ occasion); [reflexivity|]). reflexivity.
Qed.

Lemma of_type_type_is (clothing_items : list (@item features)) (t : string)
  (it : @item features) :
  t <> "other"%string -> In it (of_type t clothing_items) -> type_is it t = true.
Proof.
  intros Ht H. unfold of_type in H. apply filter_In in H. destruct H as [_ H].
  unfold type_or_other, type_is in *. destruct (item_type it); [exact H|].
  apply String.eqb_eq in H. congruence.
Qed.

Lemma flat_map_length_eq {A B : Type} (f : A -> list B) (l : list A) (k : nat) :
  (forall x, In x l -> length (f x) = k) ->
  length (flat_map f l) = (length l * k)%nat.
Proof.
  intros H. induction l as [|x l IH]; cbn; [reflexivity|].
  rewrite length_app, IH, (H x); [reflexivity|now left|].
  intros y Hy. apply H. now right.
Qed.

Lemma candidates_count (clothing_items : list (@item features)) :
  forall (pattern_rest : list string) c (used_types : list string),
    NoDup pattern_rest -> ~ In "other"%string pattern_rest ->
    (forall t, In t pattern_rest -> mem t used_types = false) ->
    length (candidates (group_by_type clothing_items) pattern_rest c used_types)
    = combinations_of clothing_items pattern_rest.
Proof.
  induction pattern_rest as [|t rest IH]; intros c used Hnd Ho Hu;
    cbn [candidates combinations_of fold_right]; [reflexivity|].
  rewrite (Hu t (or_introl eq_refl)). rewrite group_get_or.
  inversion Hnd as [|? ? Hnt Hnd']; subst.
  rewrite (flat_map_length_eq _ _ (combinations_of clothing_items rest)).
  - now rewrite length_firstn.
  - intros it Hit. apply in_firstn in Hit.
    rewrite (of_type_type_is clothing_items t it); [|intros ->; apply Ho; now left|exact Hit].
    apply IH; [exact Hnd'|intros K; apply Ho; now right|].
    intros t' Ht'. cbn [mem existsb]. fold (mem t' used).
    rewrite (Hu t' (or_intror Ht')), orb_false_r.
    apply String.eqb_neq. intros ->. contradiction.
Qed.

Lemma combinations_of_missing (clothing_items : list (@item features))
  (pattern : list string) (t : string) :
  In t pattern -> of_type t clothing_items = [] ->
  combinations_of clothing_items pattern = 0%nat.
Proof.
  intros Hin He. induction pattern as [|u pattern IH]; [destruct Hin|].
  cbn [combinations_of fold_right]. destruct Hin as [->|Hin].
  - rewrite He. reflexivity.
  - fold (combinations_of clothing_items pattern). rewrite (IH Hin). lia.
Qed.

Lemma forallb_false {A : Type} (f : A -> bool) (l : list A) :
  forallb f l = false -> exists x, In x l /\ f x = false.
Proof.
  induction l as [|x l IH]; cbn; [discriminate|].
  destruct (f x) eqn:E; cbn.
  - intros H. destruct (IH H) as (y & Hy & Ey). exists y. auto.
  - intros _. exists x. auto.
Qed.

Lemma pattern_candidates_count (clothing_items : list (@item features))
  (pattern : list string) :
  table_pattern pattern = true ->
  length (pattern_candidates (group_by_type clothing_items) pattern)
  = combinations_of clothing_items pattern.
Proof.
  unfold table_pattern. intros H.
  apply andb_true_iff in H. destruct H as [H _].
  apply andb_true_iff in H. destruct H as [H Ho].
  apply andb_true_iff in H. destruct H as [Hv Hl].
  unfold pattern_candidates. rewrite Hv, Hl. cbn [negb].
  destruct (subset _ _) eqn:Es; cbn [negb].
  - apply candidates_count.
    + apply Nat.eqb_eq in Hl. apply (nodup_length_NoDup string_dec).
      unfold set_of in Hl. lia.
    + intros K. apply mem_In in K. rewrite K in Ho. discriminate.
    + reflexivity.
  - apply forallb_false in Es. destruct Es as (t & Ht & Em).
    unfold set_of in Ht. apply nodup_In in Ht. rewrite group_keys in Em.
    symmetry. apply (combinations_of_missing _ _ t Ht).
    now destruct (of_type t clothing_items).
Qed.

Lemma list_sum_step (x : nat) (l : list nat) : list_sum (x :: l) = (x + list_sum l)%nat.
Proof. reflexivity. Qed.

Lemma all_candidates_count (clothing_items : list (@item features)) r :
  forallb table_pattern (preferred_combinations r) = true ->
  length (flat_map (pattern_candidates (group_by_type clothing_items))
            (preferred_combinations r))
  = available clothing_items r.
Proof.
  unfold available. intros H. rewrite forallb_forall in H.
  induction (preferred_combinations r) as [|p ps IH]; [reflexivity|].
  cbn [flat_map map]. rewrite length_app, list_sum_step.
  rewrite pattern_candidates_count by (apply H; now left).
  rewrite IH by (intros x Hx; apply H; now right). reflexivity.
Qed.

Lemma available_empty r :
  forallb table_pattern (preferred_combinations r) = true ->
  available (@nil (@item features)) r = 0%nat.
Proof.
  unfold available. intros T. rewrite forallb_forall in T.
  induction (preferred_combinations r) as [|p ps IH]; [reflexivity|].
  cbn [map]. rewrite list_sum_step, IH by (intros x Hx; apply T; now right).
  specialize (T p (or_introl eq_refl)). unfold table_pattern in T.
  apply andb_true_iff in T. destruct T as [T _].
  apply andb_true_iff in T. destruct T as [T _].
  apply andb_true_iff in T. destruct T as [T _].
  destruct p as [|t p]; [discriminate T|]. reflexivity.
Qed.

Lemma NoDup_map_Some {A : Type} (l : list A) : NoDup l -> NoDup (map Some l).
Proof.
  induction 1 as [|x l Hx _ IH]; cbn; constructor; [|exact IH].
  intros K. apply in_map_iff in K. destruct K as (y & [= ->] & Hy). contradiction.
Qed.

Lemma follows_types (clothing_items : list (@item features))
  (pattern : list string) c :
  follows clothing_items pattern c -> map item_type c = map Some pattern.
Proof.
  induction 1 as [|it t c p [Ht _] _ IH]; cbn; [reflexivity|]. now rewrite Ht, IH.
Qed.

(** With similarities between 0 and 1, an assignment of annotated items of
    different types is always accepted. *)
Lemma complete_accepts occasion r c outfits :
  unit_similarity compute_similarity -> Forall annotated c -> c <> [] ->
  NoDup (map item_type c) ->
  exists o, complete compute_similarity occasion r c outfits = Ok (outfits ++ [o]).
Proof.
  intros U Ha Hne Hnd. unfold complete. cbv zeta.
  unfold set_of_types. rewrite (nodup_fixed_point option_string_dec Hnd).
  rewrite Nat.eqb_refl. cbn [negb].
  destruct (outfit_score_total compute_similarity c occasion r Ha) as (s & Es).
  rewrite Es. cbn [bind].
  destruct (color_scheme_total c Ha) as ([[sch conf] cols] & ->). cbn [bind].
  pose proof (outfit_score_bounds _ _ _ _ U Hne Es) as B.
  rewrite (proj2 (leb_le 0.50 s)) by lra. eauto.
Qed.

Lemma scan_count occasion r cap cs outfits :
  (forall c outfits', In c cs ->
     exists o, complete compute_similarity occasion r c outfits' = Ok (outfits' ++ [o])) ->
  len outfits <= cap ->
  exists res,
    scan compute_similarity occasion r cap cs outfits = Ok res
    /\ len res = Z.min cap (len outfits + len cs).
Proof.
  revert outfits. induction cs as [|c cs IH]; intros outfits Hc Hl; cbn [scan].
  - exists outfits. split; [reflexivity|]. change (len []) with 0. lia.
  - destruct (Z.leb_spec cap (len outfits)) as [H|H].
    + exists outfits. split; [reflexivity|].
      pose proof (len_nonneg (c :: cs)). lia.
    + destruct (Hc c outfits (or_introl eq_refl)) as (o & ->). cbn [bind].
      destruct (IH (outfits ++ [o])) as (res & E & Hr).
      * intros c' o' Hin. apply Hc. now right.
      * rewrite len_app. change (len [o]) with 1. lia.
      * exists res. split; [exact E|]. rewrite Hr, len_app.
        change (len [o]) with 1. unfold len. cbn [length]. lia.
Qed.

Lemma recommended_count (clothing_items : list (@item features)) occasion
  (max_outfits items_per_outfit : Z) :
  unit_similarity compute_similarity -> Forall annotated clothing_items ->
  0 <= max_outfits ->
  exists recommended,
    recommend_outfits compute_similarity clothing_items occasion max_outfits
      items_per_outfit = Ok recommended
    /\ len recommended =
         Z.min max_outfits
           (Z.of_nat (available clothing_items
                        (get_or occasion_rules occasion casual_rules))).
Proof.
  intros U Ha Hm. pose proof (occasion_rules_table occasion) as T.
  unfold table_rules in T. apply andb_true_iff in T. destruct T as [T _].
  set (r := get_or occasion_rules occasion casual_rules) in *.
  destruct clothing_items as [|it its] eqn:Ei.
  { exists []. split; [reflexivity|].
    rewrite (available_empty r T). change (len []) with 0. lia. }
  rewrite <- Ei in *. rewrite recommend_outfits_scan by (rewrite Ei; discriminate).
  fold r.
  set (cs := flat_map (pattern_candidates (group_by_type clothing_items))
               (preferred_combinations r)).
  destruct (scan_count occasion r max_outfits cs []) as (found & Ef & Hf).
  - intros c outfits' Hc. unfold cs in Hc.
    pose proof (pattern_candidates_items annotated clothing_items
                  (preferred_combinations r) Ha) as Hall.
    rewrite Forall_forall in Hall. specialize (Hall c Hc).
    apply in_flat_map in Hc. destruct Hc as (p & Hp & Hc).
    apply pattern_candidates_follow in Hc. destruct Hc as (Hv & Hnd & Hfo).
    pose proof (follows_types _ _ _ Hfo) as Ety.
    apply complete_accepts; [exact U|exact Hall| |].
    + intros ->. destruct p; [discriminate Hv|discriminate Ety].
    + rewrite Ety. now apply NoDup_map_Some.
  - change (len []) with 0. exact Hm.
  - rewrite Ef. cbn [bind]. eexists. split; [reflexivity|].
    unfold cs in Hf. change (len []) with 0 in Hf. unfold len in Hf at 2.
    rewrite all_candidates_count in Hf by exact T.
    unfold Py.slice_to. rewrite (proj2 (Z.ltb_ge _ _) Hm).
    unfold len in *. rewrite firstn_all2.
    + rewrite <- (Permutation_length (sort_by_score_perm found)). lia.
    + rewrite <- (Permutation_length (sort_by_score_perm found)). lia.
Qed.

(** X18: with similarities between 0 and 1 and a wardrobe whose colours
    are well-formed, [recommend_outfits] returns as many outfits as the cap
    allows: the smaller of [max_outfits] and the number of ways to fill the
    patterns of the occasion from the first five items of each type. *)
Theorem recommend_outfits_count (clothing_items : list (@item features)) occasion
  (max_outfits items_per_outfit : Z) :
  unit_similarity compute_similarity -> Forall annotated clothing_items ->
  0 <= max_outfits ->
  exists recommended,
    recommend_outfits compute_similarity clothing_items occasion max_outfits
      items_per_outfit = Ok recommended
    /\ len recommended =
         Z.min max_outfits
           (Z.of_nat (available clothing_items
                        (get_or occasion_rules occasion casual_rules))).
Proof. apply recommended_count. Qed.

Lemma available_top_bottom (clothing_items : list (@item features)) r :
  In ["top"; "bottom"]%string (preferred_combinations r) ->
  of_type "top" clothing_items <> [] -> of_type "bottom" clothing_items <> [] ->
  (1 <= available clothing_items r)%nat.
Proof.
  intros Hin Ht Hb. unfold available.
  induction (preferred_combinations r) as [|p ps IH]; [destruct Hin|].
  cbn [map]. rewrite list_sum_step.
  destruct Hin as [->|Hin]; [|specialize (IH Hin); lia].
  cbn [combinations_of fold_right].
  destruct (of_type "top" clothing_items); [congruence|].
  destruct (of_type "bottom" clothing_items); [congruence|].
  cbn [length]. lia.
Qed.

(** X19: with similarities between 0 and 1, a wardrobe with well-formed
    colours that has a top and a bottom gets at least one outfit for every
    occasion, known or not, as soon as [max_outfits] is at least 1. *)
Theorem recommend_outfits_nonempty (clothing_items : list (@item features))
  occasion (max_outfits items_per_outfit : Z) :
  unit_similarity compute_similarity -> Forall annotated clothing_items ->
  of_type "top" clothing_items <> [] -> of_type "bottom" clothing_items <> [] ->
  1 <= max_outfits ->
  exists o rest,
    recommend_outfits compute_similarity clothing_items occasion max_outfits
      items_per_outfit = Ok (o :: rest).
Proof.
  intros U Ha Ht Hb Hm.
  destruct (recommended_count clothing_items occasion max_outfits items_per_outfit
              U Ha ltac:(lia)) as (recommended & E & Hl).
  pose proof (occasion_rules_table occasion) as T.
  unfold table_rules in T. apply andb_true_iff in T. destruct T as [_ T].
  apply existsb_exists in T. destruct T as (p & Hp & Ep).
  destruct (list_eq_dec string_dec p ["top"; "bottom"]%string) as [->|];
    [|discriminate].
  pose proof (available_top_bottom clothing_items _ Hp Ht Hb) as Hav.
  destruct recommended as [|o rest]; [|eauto].
  change (len []) with 0 in Hl. lia.
Qed.

End RecommenderMore.

(** ** The size of the outfits *)

Section OutfitSize.

Context {features : Type}.
Variable compute_similarity : features -> features -> Q.

(** X20: [items_per_outfit] has no effect: the result is the same for every
    value of it, and a recommended outfit has as many items as its pattern
    has types, between one and three, its [total_items]. *)
Theorem items_per_outfit_ignored (clothing_items : list (@item features))
  (occasion : string) (max_outfits items_per_outfit items_per_outfit' : Z) :
  recommend_outfits compute_similarity clothing_items occasion max_outfits
    items_per_outfit =
  recommend_outfits compute_similarity clothing_items occasion max_outfits
    items_per_outfit'
  /\ forall recommended : list (@outfit features),
       recommend_outfits compute_similarity clothing_items occasion max_outfits
         items_per_outfit = Ok recommended ->
       Forall
         (fun o => (1 <= total_items o <= 3)%nat
                   /\ total_items o = length (items o))
         recommended.
Proof.
  split; [reflexivity|]. intros recommended H.
  pose proof (occasion_rules_table occasion) as T.
  unfold table_rules in T. apply andb_true_iff in T. destruct T as [T _].
  rewrite forallb_forall in T.
  eapply Forall_impl; [|exact (recommended_members _ _ _ _ _ _ H)].
  cbn. intros o [Ho (_ & _ & Hn & _)]. rewrite Hn. split; [|reflexivity].
  apply in_flat_map in Ho. destruct Ho as (p & Hp & Ho).
  apply pattern_candidates_follow in Ho. destruct Ho as (Hv & _ & Hf).
  apply Forall2_length in Hf. rewrite Hf.
  specialize (T p Hp). unfold table_pattern in T.
  apply andb_true_iff in T. destruct T as [_ T]. apply Nat.leb_le in T.
  destruct p; [discriminate Hv|cbn [length] in *; lia].
Qed.

End OutfitSize.

(** ** The name of a colour and its neutrality *)

Lemma classify_not_neutral (hue_diff : Q) : classify hue_diff <> "neutral"%string.
Proof.
  unfold classify.
  repeat match goal with
    | |- context [if ?c then _ else _] => destruct c
    end; discriminate.
Qed.

(** X21: the name [get_color_name] gives is one of ten names, and it is
    White, Black or Gray exactly when the harmony functions treat the
    colour as a neutral. *)
Theorem color_name_neutral (hex_color name : string) :
  get_color_name hex_color = Ok name ->
  In name ["White"; "Black"; "Gray"; "Red"; "Orange"; "Yellow"; "Green"; "Blue";
           "Purple"; "Pink"]%string
  /\ (In name ["White"; "Black"; "Gray"]%string <->
      get_color_scheme_type hex_color hex_color = Ok "neutral"%string).
Proof.
  unfold get_color_name.
  destruct (hex_to_rgb hex_color) as [c|] eqn:E1; cbn [bind]; [|discriminate].
  destruct (rgb_to_hsv c) as [[[h s] v]|] eqn:E2; cbn [bind]; [|discriminate].
  rewrite (scheme_unfold _ _ _ _ _ _ _ _ _ _ E1 E1 E2 E2).
  destruct (Py.ltb s 20); cbn [orb].
  - repeat match goal with
      | |- context [if ?c then _ else _] => destruct c
      end; intros [= <-]; (split; [cbn; tauto|split; [reflexivity|cbn; tauto]]).
  - assert (N : Ok (classify (hue_difference h h)) <> Ok "neutral"%string).
    { intros [= K]. exact (classify_not_neutral _ K). }
    repeat match goal with
      | |- context [if ?c then _ else _] => destruct c
      end; intros [= <-];
      (split; [cbn; tauto|split; [intros [K|[K|[K|[]]]]; discriminate K|intros K; contradiction]]).
Qed.

(** ** Instances of the further properties *)

Lemma unit_no_similarity : unit_similarity no_similarity.
Proof. intros a b. unfold no_similarity. lra. Qed.

Lemma annotated_bottom_and_shoes : Forall annotated bottom_and_shoes.
Proof. repeat constructor. Qed.

Lemma rgb_to_hex_round_trip_witness :
  Spec.valid_hex (rgb_to_hex (59, 89, 152)) = true
  /\ lower (rgb_to_hex (59, 89, 152)) = rgb_to_hex (59, 89, 152)
  /\ hex_to_rgb (rgb_to_hex (59, 89, 152)) = Ok (59, 89, 152).
Proof. apply (rgb_to_hex_round_trip 59 89 152); lia. Defined.

Lemma hex_to_rgb_round_trip_witness :
  exists c, hex_to_rgb "#3B5998"%string = Ok c /\ rgb_to_hex c = lower "#3B5998"%string.
Proof. apply (hex_to_rgb_round_trip "#3B5998"%string). evaluate. Defined.

Lemma hex_to_rgb_short_witness : hex_to_rgb "#1234"%string = Raise ValueError.
Proof. apply (hex_to_rgb_short "#1234"%string). evaluate. Defined.

Lemma hex_to_rgb_ignores_witness :
  hex_to_rgb (String "#" "#FF8000"%string) = hex_to_rgb "#FF8000"%string
  /\ hex_to_rgb ("#FF8000" ++ "7f")%string = hex_to_rgb "#FF8000"%string.
Proof.
  destruct (hex_to_rgb_ignores "#FF8000"%string "7f"%string) as [A B].
  split; [exact A|]. apply B. evaluate.
Defined.

Lemma rgb_to_hsv_range_witness :
  exists h s v,
    rgb_to_hsv (128, 128, 128) = Ok (h, s, v)
    /\ (0 <= h < 360)%Q /\ (0 <= s <= 100)%Q /\ (0 <= v <= 100)%Q
    /\ (h == 0 /\ s == 0)%Q.
Proof.
  destruct (rgb_to_hsv_range 128 128 128) as (h & s & v & E & Hh & Hs & Hv & G);
    try lia.
  exists h, s, v. split; [exact E|]. split; [exact Hh|]. split; [exact Hs|].
  split; [exact Hv|]. apply G; reflexivity.
Defined.


Lemma is_neutral_color_covers_witness :
  _is_neutral_color "#808080"%string = Ok true
  \/ _is_neutral_color "#FF0000"%string = Ok true.
Proof.
  apply (proj1 (is_neutral_color_covers "#808080"%string "#FF0000"%string)).
  evaluate.
Defined.

Lemma recommended_follows_pattern_witness :
  exists recommended,
    recommend_outfits no_similarity top_and_bottom "casual"%string 5 2 = Ok recommended
    /\ Forall
         (fun o =>
            exists pattern,
              In pattern (preferred_combinations
                            (get_or occasion_rules "casual"%string casual_rules))
              /\ valid_outfit pattern = true /\ NoDup pattern
              /\ follows top_and_bottom pattern (items o))
         recommended.
Proof.
  destruct (recommend_outfits_total no_similarity top_and_bottom "casual"%string 5 2
              annotated_top_and_bottom) as (recommended & E).
  exists recommended. split; [exact E|].
  exact (recommended_follows_pattern no_similarity top_and_bottom "casual"%string
           5 2 recommended E).
Defined.

Lemma recommended_recorded_witness :
  exists recommended,
    recommend_outfits no_similarity top_and_bottom "formal"%string 5 2 = Ok recommended
    /\ Forall
         (recorded no_similarity "formal"%string
            (get_or occasion_rules "formal"%string casual_rules))
         recommended.
Proof.
  destruct (recommend_outfits_total no_similarity top_and_bottom "formal"%string 5 2
              annotated_top_and_bottom) as (recommended & E).
  exists recommended. split; [exact E|].
  exact (recommended_recorded no_similarity top_and_bottom "formal"%string
           5 2 recommended E).
Defined.

Lemma outfit_score_range_witness :
  exists total,
    _calculate_outfit_score no_similarity top_and_bottom "casual"%string casual_rules
      = Ok total
    /\ (0.51 <= total <= 1.0)%Q /\ (0.50 <=? total)%Q = true.
Proof.
  destruct (outfit_score_total no_similarity top_and_bottom "casual"%string
              casual_rules annotated_top_and_bottom) as (total & E).
  exists total. split; [exact E|].
  apply (outfit_score_range no_similarity top_and_bottom "casual"%string
           casual_rules total); [exact unit_no_similarity|discriminate|exact E].
Defined.

Lemma recommend_outfits_needs_basics_witness :
  recommend_outfits no_similarity bottom_and_shoes "party"%string 5 2 = Ok [].
Proof.
  apply (recommend_outfits_needs_basics no_similarity bottom_and_shoes
           "party"%string 5 2); [reflexivity|left; reflexivity].
Defined.

Lemma unknown_occasion_as_casual_witness :
  recommend_outfits no_similarity top_and_bottom "beach"%string 5 2 =
  (recommended <- recommend_outfits no_similarity top_and_bottom "casual"%string 5 2 ;;
   Ok (map (with_occasion "beach"%string) recommended)).
Proof.
  apply (unknown_occasion_as_casual no_similarity top_and_bottom "beach"%string 5 2).
  reflexivity.
Defined.

Lemma outfit_color_scheme_confidence_witness :
  exists scheme confidence colors,
    _get_outfit_color_scheme top_and_bottom = Ok (scheme, confidence, colors)
    /\ (0 < confidence <= 1)%Q
    /\ colors = ["#ff0000"; "#0000ff"]%string.
Proof.
  destruct (color_scheme_total top_and_bottom annotated_top_and_bottom)
    as ([[scheme confidence] colors] & E).
  exists scheme, confidence, colors. split; [exact E|].
  destruct (outfit_color_scheme_confidence top_and_bottom scheme confidence colors E)
    as (Hc & Hcol & _).
  split; [exact Hc|exact Hcol].
Defined.

Lemma generate_combinations_bounds_witness :
  exists generated,
    _generate_combinations no_similarity (group_by_type top_and_bottom)
      "casual"%string casual_rules 5 ["top"; "bottom"]%string = Ok generated
    /\ len generated <= Z.max 5 0
    /\ (length generated <= 5 ^ 2)%nat
    /\ Forall well_formed generated.
Proof.
  destruct (scan_total no_similarity "casual"%string casual_rules 5
              (pattern_candidates (group_by_type top_and_bottom)
                 ["top"; "bottom"]%string) [])
    as (generated & E).
  - repeat constructor.
  - rewrite <- _generate_combinations_scan in E.
    exists generated. split; [exact E|].
    exact (generate_combinations_bounds no_similarity (group_by_type top_and_bottom)
             "casual"%string casual_rules 5 ["top"; "bottom"]%string generated E).
Defined.

Lemma recommend_outfits_count_witness :
  exists recommended,
    recommend_outfits no_similarity top_and_bottom "casual"%string 5 2 = Ok recommended
    /\ len recommended = 1.
Proof.
  apply (recommend_outfits_count no_similarity top_and_bottom "casual"%string 5 2);
    [exact unit_no_similarity|exact annotated_top_and_bottom|lia].
Defined.

Lemma recommend_outfits_nonempty_witness :
  exists o rest,
    recommend_outfits no_similarity top_and_bottom "sports"%string 1 2
      = Ok (o :: rest).
Proof.
  apply (recommend_outfits_nonempty no_similarity top_and_bottom "sports"%string 1 2);
    [exact unit_no_similarity|exact annotated_top_and_bottom|evaluate|evaluate|lia].
Defined.

Lemma items_per_outfit_ignored_witness :
  exists recommended,
    recommend_outfits no_similarity top_and_bottom "casual"%string 5 7 = Ok recommended
    /\ Forall
         (fun o => (1 <= total_items o <= 3)%nat /\ total_items o = length (items o))
         recommended.
Proof.
  destruct (recommend_outfits_total no_similarity top_and_bottom "casual"%string 5 7
              annotated_top_and_bottom) as (recommended & E).
  exists recommended. split; [exact E|].
  exact (proj2 (items_per_outfit_ignored no_similarity top_and_bottom "casual"%string
                  5 7 2) recommended E).
Defined.

Lemma color_name_neutral_witness :
  In "Gray"%string
     ["White"; "Black"; "Gray"; "Red"; "Orange"; "Yellow"; "Green"; "Blue";
      "Purple"; "Pink"]%string
  /\ (In "Gray"%string ["White"; "Black"; "Gray"]%string <->
      get_color_scheme_type "#808080"%string "#808080"%string = Ok "neutral"%string).
Proof. apply (color_name_neutral "#808080"%string "Gray"%string). evaluate. Defined.
